(** * build_index.py: the NDJSON join-and-index pipeline, embedded in Rocq

    A shallow embedding of [backend/vector-service/build_index.py]: the
    record reader [_iter_ndjson], the key resolver [_stable_key], the vector
    coercer [_coerce_vector] and the pipeline [build_faiss_index], followed
    by the properties of the specification that hold of them.

    Python values are modelled as the data [json.loads] produces.  Text is a
    [string] of characters below 128 (whitespace and letter case are the
    ASCII ones); a Python [float] is an IEEE binary64 value and a NumPy
    [float32] an IEEE binary32 value, both as [spec_float].  What Python and
    NumPy compute outside this file's reach (the JSON parser, the printed
    form of a float or of a quoted string, the parsing of a number written
    as text, the reduction behind [np.linalg.norm]) enters as the variables
    of the section [BuildIndex].  A path names either no file or a readable
    text file in UTF-8; errors of the operating system while reading or
    writing are not modelled, nor is a failure of line 158 to encode the
    sidecar, which text below 128 cannot cause.

    [json.loads] raises more than the [JSONDecodeError] that the reader
    catches.  [_iter_ndjson] and [build_faiss_index] are the reader and the
    pipeline on files no line of which makes it raise anything else;
    [_iter_ndjson_outcome] and [build_faiss_index_outcome] are the reader
    and the pipeline on every file, with the exception that ends the call
    when a line raises one. *)

From Stdlib Require Import ZArith String Ascii List Bool Lia SpecFloat DecimalString.
From stdpp Require Import gmap strings list sorting.

Local Open Scope string_scope.
Local Open Scope list_scope.

(** ** Text: [str.strip], [str.lower], [str.startswith] *)

Module Text.

(** The characters [str.strip()] removes: tab, line feed, vertical tab, form
    feed, carriage return, the four separators 28 to 31, and the space. *)
Definition is_space (c : ascii) : bool :=
  let n := nat_of_ascii c in
  ((9 <=? n)%nat && (n <=? 13)%nat) || ((28 <=? n)%nat && (n <=? 32)%nat).

Definition nonempty (s : string) : bool :=
  match s with EmptyString => false | String _ _ => true end.

Fixpoint lstrip (s : string) : string :=
  match s with
  | EmptyString => EmptyString
  | String c s' => if is_space c then lstrip s' else s
  end.

Fixpoint rstrip (s : string) : string :=
  match s with
  | EmptyString => EmptyString
  | String c s' =>
      let t := rstrip s' in
      if negb (nonempty t) && is_space c then EmptyString else String c t
  end.

Definition strip (s : string) : string := rstrip (lstrip s).

Definition lower_char (c : ascii) : ascii :=
  let n := nat_of_ascii c in
  if (65 <=? n)%nat && (n <=? 90)%nat then ascii_of_nat (n + 32) else c.

Fixpoint lower (s : string) : string :=
  match s with
  | EmptyString => EmptyString
  | String c s' => String (lower_char c) (lower s')
  end.

Definition startswith (s p : string) : bool := String.prefix p s.

(** [str(n)] of an integer: decimal digits, a leading minus sign. *)
Definition str_of_Z (z : Z) : string := NilZero.string_of_int (Z.to_int z).

Definition str_of_nat (n : nat) : string := str_of_Z (Z.of_nat n).

End Text.

(** ** JSON values, as [json.loads] builds them *)

#[local] Set Warnings "-register-all".

Inductive json : Type :=
| JNull
| JBool (b : bool)
| JInt (z : Z)
| JFloat (f : spec_float)
| JStr (s : string)
| JArr (l : list json)
| JObj (o : list (string * json)).

(** A Python [dict] with text keys: its bindings in insertion order. *)
Abbreviation dict := (list (string * json)).

Fixpoint dict_lookup (d : dict) (k : string) : option json :=
  match d with
  | [] => None
  | (k', v) :: d' => if String.eqb k' k then Some v else dict_lookup d' k
  end.

(** [d.get(k)]: the value bound to [k], [None] when there is none. *)
Definition py_get (d : dict) (k : string) : json :=
  match dict_lookup d k with Some v => v | None => JNull end.

(** [d[k] = v]: the binding is replaced in place, or added last. *)
Fixpoint dict_set (d : dict) (k : string) (v : json) : dict :=
  match d with
  | [] => [(k, v)]
  | (k', v') :: d' =>
      if String.eqb k' k then (k', v) :: d' else (k', v') :: dict_set d' k v
  end.

Definition float_is_zero (f : spec_float) : bool :=
  match f with S754_zero _ => true | _ => false end.

(** Python's truth value of a JSON value. *)
Definition truthy (v : json) : bool :=
  match v with
  | JNull => false
  | JBool b => b
  | JInt z => negb (z =? 0)%Z
  | JFloat f => negb (float_is_zero f)
  | JStr s => Text.nonempty s
  | JArr l => match l with [] => false | _ => true end
  | JObj o => match o with [] => false | _ => true end
  end.

(** [a or b]. *)
Definition py_or (a b : json) : json := if truthy a then a else b.

(** A path is its text; the files that exist are the keys of a finite map,
    each bound to the lines of the file in order. *)
Abbreviation path := string.
Abbreviation filesystem := (gmap string (list string)).

Definition f32 : Type := spec_float.

Section BuildIndex.

(** What the interpreter and NumPy supply. *)

(** [repr] of a Python [float] and of a Python [str] (quoted, escaped). *)
Variable repr_float : spec_float -> string.
Variable repr_str : string -> string.

(** [float(s)] of a text [s]; [None] when it raises [ValueError]. *)
Variable float_of_str : string -> option spec_float.

(** [json.loads]; [None] when it raises [json.JSONDecodeError]. *)
Variable json_loads : string -> option json.

(** [np.linalg.norm] of one row of a [float32] matrix. *)
Variable linalg_norm : list f32 -> f32.

(** ** [str(x)] and the key resolver *)

Fixpoint py_repr (v : json) : string :=
  match v with
  | JNull => "None"
  | JBool b => if b then "True" else "False"
  | JInt z => Text.str_of_Z z
  | JFloat f => repr_float f
  | JStr s => repr_str s
  | JArr l => "[" +:+ String.concat ", " (map py_repr l) +:+ "]"
  | JObj o =>
      "{" +:+ String.concat ", "
                (map (fun kv => let '(k, x) := kv in repr_str k +:+ ": " +:+ py_repr x) o)
          +:+ "}"
  end.

(** [str(v)]: text is returned as it is, anything else printed. *)
Definition py_str (v : json) : string :=
  match v with
  | JStr s => s
  | _ => py_repr v
  end.

Definition _stable_key (m : dict) : string :=
  let imdb_id := Text.strip (py_str (py_or (py_get m "imdbId") (JStr ""))) in
  if Text.nonempty imdb_id then imdb_id else
  let movie_id := Text.strip (py_str (py_or (py_get m "id") (JStr ""))) in
  if Text.nonempty movie_id then movie_id else
  let key := Text.strip (py_str (py_or (py_get m "key") (JStr ""))) in
  if Text.nonempty key then key else
  let title := Text.lower (Text.strip (py_str (py_or (py_get m "title") (JStr "")))) in
  let year := Text.strip (py_str (py_or (py_get m "year") (JStr ""))) in
  if Text.nonempty title && Text.nonempty year then title +:+ "|" +:+ year
  else if Text.nonempty title then "title:" +:+ title
  else "".

(** The key of a vector record, line 106 of the source:
    [str(r.get("key") or "").strip() or _stable_key(r)]. *)
Definition vector_key (r : dict) : string :=
  let k := Text.strip (py_str (py_or (py_get r "key") (JStr ""))) in
  if Text.nonempty k then k else _stable_key r.

(** ** NumPy: [np.asarray(v, dtype=np.float32)], [np.isfinite] *)

Definition f32_zero : f32 := S754_zero false.
Definition f32_one : f32 := binary_normalize 24 128 1 0 false.

(** A Python [int] as a [float]: rounded to binary64, an infinite result
    standing for [OverflowError]. *)
Definition f64_of_Z (z : Z) : spec_float := binary_normalize 53 1024 z 0 false.

(** The cast of a binary64 value to [float32]. *)
Definition f32_of_f64 (f : spec_float) : f32 :=
  match f with
  | S754_finite s m e => binary_round 24 128 s m e
  | _ => f
  end.

Definition isfinite (x : f32) : bool :=
  match x with
  | S754_zero _ | S754_finite _ _ _ => true
  | S754_infinity _ | S754_nan => false
  end.

(** An array: its shape and its items in row-major order. *)
Record ndarray : Type := { shape : list nat; data : list f32 }.

Definition ndim (a : ndarray) : nat := length (shape a).

Definition shape_eqb (a b : option (list nat)) : bool :=
  match a, b with
  | Some x, Some y => bool_decide (x = y)
  | _, _ => false
  end.

(** The shape NumPy finds in nested lists; [None] when they are ragged. *)
Fixpoint np_shape (v : json) : option (list nat) :=
  match v with
  | JArr l =>
      match l with
      | [] => Some [0]
      | x :: xs =>
          match np_shape x with
          | None => None
          | Some s =>
              if forallb (fun y => shape_eqb (np_shape y) (Some s)) xs
              then Some (length l :: s) else None
          end
      end
  | _ => Some []
  end.

Fixpoint np_items (v : json) : list json :=
  match v with
  | JArr l => flat_map np_items l
  | _ => [v]
  end.

(** One item stored into a [float32] array; [None] when NumPy raises. *)
Definition f32_of_item (x : json) : option f32 :=
  match x with
  | JNull => Some S754_nan
  | JBool b => Some (if b then f32_one else f32_zero)
  | JInt z =>
      match f64_of_Z z with
      | S754_infinity _ => None
      | d => Some (f32_of_f64 d)
      end
  | JFloat f => Some (f32_of_f64 f)
  | JStr s => f32_of_f64 <$> float_of_str s
  | JArr _ | JObj _ => None
  end.

(** [np.asarray(v, dtype=np.float32)] of a list [v]; [None] when it raises. *)
Definition np_asarray_f32 (v : list json) : option ndarray :=
  match np_shape (JArr v) with
  | None => None
  | Some sh =>
      match mapM f32_of_item (np_items (JArr v)) with
      | None => None
      | Some xs => Some {| shape := sh; data := xs |}
      end
  end.

Definition _coerce_vector (v : json) (expected_dim : option nat) : option ndarray :=
  match v with
  | JArr l =>
      if (length l =? 0)%nat then None else
      if match expected_dim with
         | Some d => negb (length l =? d)%nat
         | None => false
         end
      then None else
      match np_asarray_f32 l with
      | None => None
      | Some arr =>
          if negb (ndim arr =? 1)%nat then None else
          if negb (forallb isfinite (data arr)) then None else
          Some arr
      end
  | _ => None
  end.


(** ** The record reader *)

(** [enumerate(f)], counting from [i]. *)
Fixpoint enumerate_from {A : Type} (i : nat) (l : list A) : list (nat * A) :=
  match l with
  | [] => []
  | x :: l' => (i, x) :: enumerate_from (S i) l'
  end.

Definition enumerate {A : Type} (l : list A) : list (nat * A) := enumerate_from 0 l.

(** One turn of the loop of [_iter_ndjson] on the pair [(i, line)]: the
    list [out] after it, for a line on which [json.loads] returns or raises
    [JSONDecodeError] ([ndjson_step_outcome] below has the other lines). *)
Definition ndjson_step (out : list dict) (il : nat * string) : list dict :=
  let '(i, line) := il in
  let s := Text.strip line in
  if negb (Text.nonempty s) then out else
  if Text.startswith s "#" || Text.startswith s "//" then out else
  match json_loads s with
  | None => out
  | Some obj =>
      match obj with
      | JObj o => out ++ [dict_set o "__line__" (JInt (Z.of_nat i + 1))]
      | _ => out
      end
  end.

Definition _iter_ndjson (fs : filesystem) (p : path) : list dict :=
  match fs !! p with
  | None => []
  | Some lines => fold_left ndjson_step (enumerate lines) []
  end.

(** ** The pipeline's data *)

(** One entry of the sidecar's [items]: the dictionary built at lines
    121 to 133 of the source, a field per key. *)
Record meta_item : Type := {
  item_imdbId : json;
  item_id : json;
  item_key : string;
  item_title : json;
  item_year : json;
  item_genre : json;
  item_productionCountry : json;
  item_moodTags : json
}.

(** The sidecar document [meta_obj]. *)
Record meta_obj : Type := {
  meta_dim : nat;
  meta_count : nat;
  meta_skipped : nat;
  meta_items : list meta_item
}.

(** The index engine, as the pipeline uses it: [faiss.IndexFlatIP(d)] is
    an empty index of dimension [d], [index.add(mat)] stores the rows of
    [mat] after those already there, in order. *)
Record faiss_index : Type := { index_d : nat; index_rows : list (list f32) }.

Definition IndexFlatIP (d : nat) : faiss_index := {| index_d := d; index_rows := [] |}.

Definition index_add (index : faiss_index) (mat : list (list f32)) : faiss_index :=
  {| index_d := index_d index; index_rows := index_rows index ++ mat |}.

(** The three [ValueError]s the pipeline raises, by their message. *)
Inductive error : Type :=
| NoVectorsFound (vectors_ndjson : string)
| NoValidVectorsFound (vectors_ndjson : string)
| NoValidVectorsToIndex.

Definition error_message (e : error) : string :=
  match e with
  | NoVectorsFound p => "No vectors found in " +:+ p
  | NoValidVectorsFound p => "No valid vectors found in " +:+ p
  | NoValidVectorsToIndex => "No valid vectors to index"
  end.



(** What a run does to the world outside, in order. *)
Inductive event : Type :=
| EMkdirParent (target : string)
| EWriteIndex (p : string) (index : faiss_index)
| EWriteText (p : string) (doc : meta_obj)
| EPrint (line : string).

(** A computation that logs events and may raise. *)
Definition run (A : Type) : Type := list event * (error + A).

Definition run_ret {A : Type} (x : A) : run A := ([], inr x).

Definition run_bind {A B : Type} (c : run A) (k : A -> run B) : run B :=
  match c with
  | (tr, inl e) => (tr, inl e)
  | (tr, inr x) => let '(tr', r) := k x in (tr ++ tr', r)
  end.

Definition raise {A : Type} (e : error) : run A := ([], inl e).

Definition emit (ev : event) : run unit := ([ev], inr tt).

Notation "x <- c1 ;; c2" := (run_bind c1 (fun x => c2))
  (at level 100, c1 at next level, c2 at level 200, right associativity).
Notation "c1 ;; c2" := (run_bind c1 (fun _ => c2))
  (at level 100, c2 at level 200, right associativity).

(** The accumulators of the join loop. *)
Record join_state : Type := {
  vectors : list ndarray;
  metas : list meta_item;
  skipped : nat
}.

Definition is_nil {A : Type} (l : list A) : bool :=
  match l with [] => true | _ => false end.

(** ** [build_faiss_index] *)

(** Lines 81 to 86: the join table, filled in file order. *)
Definition movies_step (movie_by_key : gmap string dict) (m : dict) : gmap string dict :=
  let key := _stable_key m in
  if negb (Text.nonempty key) then movie_by_key else
  <[key := m]> movie_by_key.

Definition build_movie_by_key (movies_rows : list dict) : gmap string dict :=
  fold_left movies_step movies_rows ∅.

(** Lines 92 to 97: the loop that stops at the first record whose
    [vector] is a list that is not empty. *)
Fixpoint infer_dim (vector_rows : list dict) : option nat :=
  match vector_rows with
  | [] => None
  | r :: rest =>
      match py_get r "vector" with
      | JArr vec => if (0 <? length vec)%nat then Some (length vec) else infer_dim rest
      | _ => infer_dim rest
      end
  end.

(** Line 116, [movie_by_key.get(key) or {}]. *)
Definition joined_movie (movie_by_key : gmap string dict) (key : string) : dict :=
  match movie_by_key !! key with
  | Some m => if truthy (JObj m) then m else []
  | None => []
  end.

(** Lines 117 to 133: the item of the record [r] joined with [m].  The
    source's test [isinstance(m, dict)] always holds, [m] being a [dict]. *)
Definition make_meta (m r : dict) (key : string) : meta_item :=
  let imdb_id := py_or (py_get m "imdbId") (py_get r "imdbId") in
  let movie_id := py_or (py_get m "id") (py_get r "id") in
  {| item_imdbId := imdb_id;
     item_id := movie_id;
     item_key := key;
     item_title := py_or (py_get m "title") (py_get r "title");
     item_year := py_or (py_get m "year") (py_get r "year");
     item_genre := py_or (py_get m "genre") (py_get r "genre");
     item_productionCountry :=
       py_or (py_get m "productionCountry") (py_get r "productionCountry");
     item_moodTags :=
       py_or (py_or (py_get m "moodTags") (py_get r "moodTags")) (JArr []) |}.

(** Lines 105 to 133: one turn of the join loop. *)
Definition join_step (movie_by_key : gmap string dict) (inferred_dim : nat)
    (st : join_state) (r : dict) : join_state :=
  let key := vector_key r in
  if negb (Text.nonempty key) then
    {| vectors := vectors st; metas := metas st; skipped := skipped st + 1 |}
  else
  match _coerce_vector (py_get r "vector") (Some inferred_dim) with
  | None => {| vectors := vectors st; metas := metas st; skipped := skipped st + 1 |}
  | Some vec =>
      let m := joined_movie movie_by_key key in
      {| vectors := vectors st ++ [vec];
         metas := metas st ++ [make_meta m r key];
         skipped := skipped st |}
  end.

Definition join_loop (movie_by_key : gmap string dict) (inferred_dim : nat)
    (vector_rows : list dict) : join_state :=
  fold_left (join_step movie_by_key inferred_dim) vector_rows
    {| vectors := []; metas := []; skipped := 0 |}.

(** Lines 138 to 141: the rows stacked, their norms, zero norms replaced
    by one, each row divided by its norm. *)
Definition normalize (vectors : list ndarray) : list (list f32) :=
  let mat := map data vectors in
  let norms := map linalg_norm mat in
  let norms := map (fun n => if SFeqb n f32_zero then f32_one else n) norms in
  zip_with (fun row n => map (fun x => SFdiv 24 128 x n) row) mat norms.

Definition summary_line (count skipped dim : nat) : string :=
  "[OK] Indexed " +:+ Text.str_of_nat count +:+ " item(s). skipped="
    +:+ Text.str_of_nat skipped +:+ " dim=" +:+ Text.str_of_nat dim.

(** Lines 92 to 99: the inferred dimension, or the error of line 99. *)
Definition infer_dimension (vectors_ndjson : path) (vector_rows : list dict) : run nat :=
  match infer_dim vector_rows with
  | None => raise (NoValidVectorsFound vectors_ndjson)
  | Some inferred_dim => run_ret inferred_dim
  end.

Definition build_faiss_index (fs : filesystem)
    (movies_ndjson vectors_ndjson out_index out_meta : path) : run unit :=
  let movies_rows := _iter_ndjson fs movies_ndjson in
  let movie_by_key := build_movie_by_key movies_rows in
  let vector_rows := _iter_ndjson fs vectors_ndjson in
  (if is_nil vector_rows then raise (NoVectorsFound vectors_ndjson) else run_ret tt) ;;
  inferred_dim <- infer_dimension vectors_ndjson vector_rows ;;
  let st := join_loop movie_by_key inferred_dim vector_rows in
  (if is_nil (vectors st) then raise NoValidVectorsToIndex else run_ret tt) ;;
  let mat := normalize (vectors st) in
  let index := index_add (IndexFlatIP inferred_dim) mat in
  emit (EMkdirParent out_index) ;;
  emit (EWriteIndex out_index index) ;;
  let meta_obj :=
    {| meta_dim := inferred_dim;
       meta_count := length (metas st);
       meta_skipped := skipped st;
       meta_items := metas st |} in
  emit (EMkdirParent out_meta) ;;
  emit (EWriteText out_meta meta_obj) ;;
  emit (EPrint (summary_line (length (metas st)) (skipped st) inferred_dim)) ;;
  emit (EPrint ("[OK] Wrote: " +:+ out_index)) ;;
  emit (EPrint ("[OK] Wrote: " +:+ out_meta)).

(** ** [_resolve_local_root] and [main] *)

(** What [pathlib] supplies, each path standing for its text:
    [str(Path(s))], [str(Path(a) / b)] and
    [str(Path(s).expanduser().resolve())]. *)
Variable path_of : string -> path.
Variable joinpath : path -> string -> path.
Variable expanduser_resolve : string -> path.

(** [a or b] on two values that are a text or [None]. *)
Definition str_or (a b : option string) : option string :=
  match a with
  | Some s => if Text.nonempty s then a else b
  | None => b
  end.

(** The [ValueError] of line 15. *)
Inductive config_error : Type := MissingLocalDataPath.

Definition config_error_message (e : config_error) : string :=
  match e with
  | MissingLocalDataPath =>
      "Missing LOCAL_DATA_PATH. Set env var LOCAL_DATA_PATH to a local output folder."
  end.

Definition _resolve_local_root (environ : gmap string string)
    (cli_value : option string) : config_error + path :=
  let raw := str_or cli_value (environ !! "LOCAL_DATA_PATH") in
  match raw with
  | None => inl MissingLocalDataPath
  | Some raw =>
      if negb (Text.nonempty raw) || negb (Text.nonempty (Text.strip raw))
      then inl MissingLocalDataPath
      else inr (expanduser_resolve raw)
  end.

(** The options given on the command line, [None] for one left out. *)
Record argv : Type := {
  given_local_data_path : option string;
  given_movies : option string;
  given_vectors : option string;
  given_out_index : option string;
  given_out_meta : option string
}.

(** The namespace [parser.parse_args()] returns. *)
Record namespace : Type := {
  args_local_data_path : string;
  args_movies : string;
  args_vectors : string;
  args_out_index : string;
  args_out_meta : string
}.

(** Lines 166 to 194: each option left out takes its default, the
    environment's [LOCAL_DATA_PATH] or the empty text for the first, the
    empty text for the others. *)
Definition parse_args (environ : gmap string string) (given : argv) : namespace :=
  {| args_local_data_path :=
       match given_local_data_path given with
       | Some s => s
       | None => match environ !! "LOCAL_DATA_PATH" with Some s => s | None => "" end
       end;
     args_movies := match given_movies given with Some s => s | None => "" end;
     args_vectors := match given_vectors given with Some s => s | None => "" end;
     args_out_index := match given_out_index given with Some s => s | None => "" end;
     args_out_meta := match given_out_meta given with Some s => s | None => "" end |}.

(** What [main] may raise. *)
Inductive main_error : Type :=
| ConfigError (e : config_error)
| BuildError (e : error).

Definition main (environ : gmap string string) (fs : filesystem) (given : argv)
    : list event * (main_error + unit) :=
  let args := parse_args environ given in
  match _resolve_local_root environ (Some (args_local_data_path args)) with
  | inl e => ([], inl (ConfigError e))
  | inr root =>
      let movies_ndjson :=
        if Text.nonempty (args_movies args) then path_of (args_movies args)
        else joinpath (joinpath root "movies") "movies.ndjson" in
      let vectors_ndjson :=
        if Text.nonempty (args_vectors args) then path_of (args_vectors args)
        else joinpath (joinpath root "vectors") "embeddings.ndjson" in
      let out_index :=
        if Text.nonempty (args_out_index args) then path_of (args_out_index args)
        else joinpath (joinpath root "index") "faiss.index" in
      let out_meta :=
        if Text.nonempty (args_out_meta args) then path_of (args_out_meta args)
        else joinpath (joinpath root "index") "meta.json" in
      match build_faiss_index fs movies_ndjson vectors_ndjson out_index out_meta with
      | (tr, inl e) => (tr, inl (BuildError e))
      | (tr, inr _) => (tr, inr tt)
      end
  end.

(** ** The reader and the pipeline, with what else [json.loads] raises *)

(** [json.loads] raises more than [json.JSONDecodeError], which is all
    that line 35 catches: [ValueError] on an integer of more than 4300
    digits, [RecursionError] on deep nesting.  [json_loads_raises s] names
    such an exception when [json.loads s] raises one; [json_loads s] is then
    not looked at.  [_iter_ndjson] above is the reader on files no line of
    which does this; [_iter_ndjson_outcome] is the reader on every file. *)
Variable json_loads_raises : string -> option string.





(** ** Auxiliary notions for the statements *)

(** A field of a record as the key resolver reads it:
    [str(r.get(field) or "").strip()]. *)
Definition candidate (r : dict) (field : string) : string :=
  Text.strip (py_str (py_or (py_get r field) (JStr ""))).


(** The vector the join loop keeps for the record [r], if it keeps one. *)
Definition vec_of (inferred_dim : nat) (r : dict) : option ndarray :=
  if Text.nonempty (vector_key r)
  then _coerce_vector (py_get r "vector") (Some inferred_dim)
  else None.

(** The records the join loop keeps, in file order, each with its vector. *)
Fixpoint kept (inferred_dim : nat) (vector_rows : list dict) : list (dict * ndarray) :=
  match vector_rows with
  | [] => []
  | r :: rest =>
      match vec_of inferred_dim r with
      | Some vec => (r, vec) :: kept inferred_dim rest
      | None => kept inferred_dim rest
      end
  end.

(** The item composed for the record [r]. *)
Definition item_of (movie_by_key : gmap string dict) (r : dict) : meta_item :=
  make_meta (joined_movie movie_by_key (vector_key r)) r (vector_key r).

(** One row divided by its norm, a zero norm counting as one. *)
Definition normalize_row (row : list f32) : list f32 :=
  let n := linalg_norm row in
  let n := if SFeqb n f32_zero then f32_one else n in
  map (fun x => SFdiv 24 128 x n) row.

(** The index and the sidecar a successful run writes. *)
Definition final_index (inferred_dim : nat) (st : join_state) : faiss_index :=
  index_add (IndexFlatIP inferred_dim) (normalize (vectors st)).

Definition final_meta (inferred_dim : nat) (st : join_state) : meta_obj :=
  {| meta_dim := inferred_dim;
     meta_count := length (metas st);
     meta_skipped := skipped st;
     meta_items := metas st |}.

Definition success_trace (out_index out_meta : path) (inferred_dim : nat)
    (st : join_state) : list event :=
  [ EMkdirParent out_index;
    EWriteIndex out_index (final_index inferred_dim st);
    EMkdirParent out_meta;
    EWriteText out_meta (final_meta inferred_dim st);
    EPrint (summary_line (length (metas st)) (skipped st) inferred_dim);
    EPrint ("[OK] Wrote: " +:+ out_index);
    EPrint ("[OK] Wrote: " +:+ out_meta) ].

(** The reader as the specification words it: the record a line yields,
    when it yields one, and the line number attached to it. *)
Definition accepts (line : string) : option dict :=
  let s := Text.strip line in
  if Text.nonempty s && negb (Text.startswith s "#") && negb (Text.startswith s "//")
  then match json_loads s with
       | Some (JObj o) => Some o
       | _ => None
       end
  else None.

Definition annotate (i : nat) (o : dict) : dict :=
  dict_set o "__line__" (JInt (Z.of_nat i + 1)).

Fixpoint read_lines (il : list (nat * string)) : list dict :=
  match il with
  | [] => []
  | (i, line) :: rest =>
      match accepts line with
      | Some o => annotate i o :: read_lines rest
      | None => read_lines rest
      end
  end.

(** What NumPy stores as one item: anything but a list. *)
Definition is_scalar (v : json) : bool :=
  match v with JArr _ => false | _ => true end.

(** The coercer as the specification words it: the first reason to reject,
    in the order given there, or the array. *)
Inductive rejection : Type :=
| NotASequenceOrEmpty
| DimensionDiffers
| NotConvertible
| NotOneDimensional
| NonFinite.

Definition dim_differs (expected_dim : option nat) (l : list json) : bool :=
  match expected_dim with
  | Some d => negb (bool_decide (length l = d))
  | None => false
  end.

Definition coercer_verdict (v : json) (expected_dim : option nat) : rejection + ndarray :=
  match v with
  | JArr (x :: l') =>
      let l := x :: l' in
      if dim_differs expected_dim l then inl DimensionDiffers else
      match np_asarray_f32 l with
      | None => inl NotConvertible
      | Some arr =>
          if negb (bool_decide (ndim arr = 1)) then inl NotOneDimensional else
          if negb (forallb isfinite (data arr)) then inl NonFinite else
          inr arr
      end
  | _ => inl NotASequenceOrEmpty
  end.

(** The line number a record carries, zero when it carries none. *)
Definition line_of (r : dict) : Z :=
  match py_get r "__line__" with
  | JInt n => n
  | _ => 0%Z
  end.

(** A record moved [k] lines down. *)
Definition shift_line (k : nat) (r : dict) : dict :=
  dict_set r "__line__" (JInt (line_of r + Z.of_nat k)).

(** The item of a vector record joined with no movie: its own fields. *)
Definition own_item (r : dict) (key : string) : meta_item :=
  {| item_imdbId := py_get r "imdbId";
     item_id := py_get r "id";
     item_key := key;
     item_title := py_get r "title";
     item_year := py_get r "year";
     item_genre := py_get r "genre";
     item_productionCountry := py_get r "productionCountry";
     item_moodTags :=
       if truthy (py_get r "moodTags") then py_get r "moodTags" else JArr [] |}.

(** The divisor of line 141 for one row: its norm, or one for a zero norm. *)
Definition divisor (row : list f32) : f32 :=
  if SFeqb (linalg_norm row) f32_zero then f32_one else linalg_norm row.

(** A path option of [main]: the text given when it is not empty, else the
    default. *)
Definition chosen_path (given : option string) (default : path) : path :=
  match given with
  | Some s => if Text.nonempty s then path_of s else default
  | None => default
  end.

(** The outcome of [build_faiss_index] as [main] hands it on. *)
Definition as_main_outcome (r : run unit) : list event * (main_error + unit) :=
  match r with
  | (tr, inl e) => (tr, inl (BuildError e))
  | (tr, inr _) => (tr, inr tt)
  end.



(** ** Example inputs *)

(** A record with both an [imdbId] and a [key]. *)
Definition ex_two_ids : dict :=
  [("imdbId", JStr "tt1"); ("key", JStr "k1")].

(** A movie whose [title], [year] and [moodTags] are present and empty or
    zero, and a vector record of the same key that has them filled in. *)
Definition ex_movie_blank : dict :=
  [("imdbId", JStr "tt1"); ("title", JStr ""); ("year", JInt 0);
   ("moodTags", JArr []); ("__line__", JInt 1)].

Definition ex_vector_draft : dict :=
  [("key", JStr "tt1"); ("title", JStr "Draft"); ("year", JInt 1999);
   ("moodTags", JArr [JStr "dark"]); ("vector", JArr [JInt 1; JInt 0]);
   ("__line__", JInt 1)].

(** Two vector records that share the key [a]. *)
Definition ex_vector_a1 : dict :=
  [("key", JStr "a"); ("vector", JArr [JInt 1]); ("__line__", JInt 1)].

Definition ex_vector_a2 : dict :=
  [("key", JStr "a"); ("vector", JArr [JInt 2]); ("__line__", JInt 2)].

(** Two datasets.  Their lines are written by name, not in JSON; the
    parser [ex_json_loads] knows these names and rejects any other text. *)
Definition ex_json_loads (s : string) : option json :=
  if String.eqb s "movie tt1" then
    Some (JObj [("imdbId", JStr "tt1"); ("title", JStr "X"); ("year", JInt 2000)])
  else if String.eqb s "movie tt1 again" then
    Some (JObj [("imdbId", JStr "tt1"); ("title", JStr "X2"); ("genre", JStr "Drama")])
  else if String.eqb s "vector tt1" then
    Some (JObj [("key", JStr "tt1"); ("title", JStr "from the vector");
                ("vector", JArr [JInt 3; JInt 0; JInt 4])])
  else if String.eqb s "vector of length two" then
    Some (JObj [("key", JStr "tt2"); ("vector", JArr [JInt 1; JInt 2])])
  else if String.eqb s "vector without key" then
    Some (JObj [("vector", JArr [JInt 0; JInt 1; JInt 0])])
  else if String.eqb s "a number" then Some (JInt 7)
  else None.

Definition ex_fs : filesystem :=
  <["movies.ndjson" := ["movie tt1"; ""; "# a comment"; "  movie tt1 again  "; "a number"]]>
  (<["embeddings.ndjson" :=
       ["vector tt1"; "// skipped"; "vector of length two"; "vector without key"]]> ∅).

(** The remaining variables on the examples.  No example holds a float, a
    nested value used as a key, or a number written as text, so the first
    three are never reached; the norm is the square root of the sum of the
    squares, added from left to right in [float32]. *)
Definition ex_repr_float (f : spec_float) : string := "".
Definition ex_repr_str (s : string) : string := s.
Definition ex_float_of_str (s : string) : option spec_float := None.
Definition ex_linalg_norm (row : list f32) : f32 :=
  SFsqrt 24 128
    (fold_left (fun acc x => SFadd 24 128 acc (SFmul 24 128 x x)) row f32_zero).

(** A file in two parts, and whole. *)
Definition ex_fs_parts : filesystem :=
  <["a.ndjson" := ["movie tt1"; ""]]>
  (<["b.ndjson" := ["# a comment"; "movie tt1 again"; "a number"]]>
  (<["ab.ndjson" := ["movie tt1"; ""; "# a comment"; "movie tt1 again"; "a number"]]> ∅)).

(** A vector with a NaN in it. *)
Definition ex_vector_with_nan : list json := [JFloat S754_nan; JInt 0; JInt 1].

(** A command line with no option and an environment that names the root
    [/data].  The paths of the example are absolute and plain, so that
    [pathlib] leaves them as they are and joins them with a slash. *)
Definition ex_path_of (s : string) : path := s.
Definition ex_joinpath (a : path) (b : string) : path := a +:+ "/" +:+ b.
Definition ex_expanduser_resolve (s : string) : path := s.

Definition ex_environ : gmap string string := <["LOCAL_DATA_PATH" := "/data"]> ∅.

Definition ex_no_option : argv :=
  {| given_local_data_path := None; given_movies := None; given_vectors := None;
     given_out_index := None; given_out_meta := None |}.

(** A movie that no vector record of [ex_fs] is keyed by. *)
Definition ex_movie_other : dict :=
  [("imdbId", JStr "tt9"); ("title", JStr "Other"); ("__line__", JInt 9)].

(** A vectors dataset of five records, the second of another length and
    the last a vector of zeros, and a movies dataset that knows two of the
    keys; their lines by name, as before. *)
Definition ex_json_loads_many (s : string) : option json :=
  if String.eqb s "vector a" then
    Some (JObj [("key", JStr "a"); ("vector", JArr [JInt 1; JInt 0])])
  else if String.eqb s "vector b of length three" then
    Some (JObj [("key", JStr "b"); ("vector", JArr [JInt 1; JInt 2; JInt 3])])
  else if String.eqb s "vector c" then
    Some (JObj [("key", JStr "c"); ("vector", JArr [JInt 0; JInt 2])])
  else if String.eqb s "vector d" then
    Some (JObj [("key", JStr "d"); ("vector", JArr [JInt 3; JInt 4])])
  else if String.eqb s "vector z" then
    Some (JObj [("key", JStr "z"); ("vector", JArr [JInt 0; JInt 0])])
  else if String.eqb s "movie c" then
    Some (JObj [("id", JStr "c"); ("title", JStr "C")])
  else if String.eqb s "movie d" then
    Some (JObj [("imdbId", JStr "d"); ("title", JStr "D"); ("year", JInt 1999)])
  else None.

Definition ex_fs_many : filesystem :=
  <["movies.ndjson" := ["movie c"; "movie d"]]>
  (<["embeddings.ndjson" :=
       ["vector a"; "vector b of length three"; "vector c"; "vector d"; "vector z"]]> ∅).









(** ** The record reader: proofs *)

Lemma ndjson_step_accepts (out : list dict) (i : nat) (line : string) :
  ndjson_step out (i, line) =
  out ++ match accepts line with Some o => [annotate i o] | None => [] end.
Proof.
  unfold ndjson_step, accepts, annotate.
  destruct (Text.nonempty (Text.strip line)); simpl; [| by rewrite app_nil_r].
  destruct (Text.startswith (Text.strip line) "#"); simpl; [by rewrite app_nil_r |].
  destruct (Text.startswith (Text.strip line) "//"); simpl; [by rewrite app_nil_r |].
  destruct (json_loads (Text.strip line)) as [[]|]; simpl; by rewrite ?app_nil_r.
Qed.

Lemma ndjson_loop (il : list (nat * string)) (out : list dict) :
  fold_left ndjson_step il out = out ++ read_lines il.
Proof.
  revert out. induction il as [|[i line] il IH]; intros out; cbn [fold_left read_lines].
  - by rewrite app_nil_r.
  - rewrite IH, ndjson_step_accepts.
    destruct (accepts line); by rewrite <- ?app_assoc, ?app_nil_r.
Qed.



Lemma dict_lookup_set (d : dict) (k : string) (v : json) :
  dict_lookup (dict_set d k v) k = Some v.
Proof.
  induction d as [|[k' v'] d IH]; simpl.
  - by rewrite String.eqb_refl.
  - destruct (String.eqb k' k) eqn:E; simpl; by rewrite E.
Qed.



(** ** The key resolver: proofs *)

Lemma _stable_key_chain (m : dict) :
  _stable_key m =
  if Text.nonempty (candidate m "imdbId") then candidate m "imdbId"
  else if Text.nonempty (candidate m "id") then candidate m "id"
  else if Text.nonempty (candidate m "key") then candidate m "key"
  else if Text.nonempty (Text.lower (candidate m "title")) && Text.nonempty (candidate m "year")
       then Text.lower (candidate m "title") +:+ "|" +:+ candidate m "year"
  else if Text.nonempty (Text.lower (candidate m "title"))
       then "title:" +:+ Text.lower (candidate m "title")
  else "".
Proof. reflexivity. Qed.

Lemma vector_key_chain (r : dict) :
  vector_key r =
  if Text.nonempty (candidate r "key") then candidate r "key" else _stable_key r.
Proof. reflexivity. Qed.

(** C1, as the code has it: a movie record is keyed by the resolver's
    chain ([imdbId], then [id], then [key], then the lower-cased title with
    the year, then the lower-cased title alone, else the empty text); a
    vector record is keyed by its own stripped [key] field when that is not
    empty, and by the resolver's chain otherwise.  The two keys of one
    record are equal when its [key] field is empty, and when its [imdbId]
    and [id] fields both are. *)
Theorem C1_key_of_either_record (r : dict) (movie_by_key : gmap string dict) :
  _stable_key r =
    (if Text.nonempty (candidate r "imdbId") then candidate r "imdbId"
     else if Text.nonempty (candidate r "id") then candidate r "id"
     else if Text.nonempty (candidate r "key") then candidate r "key"
     else if Text.nonempty (Text.lower (candidate r "title"))
             && Text.nonempty (candidate r "year")
          then Text.lower (candidate r "title") +:+ "|" +:+ candidate r "year"
     else if Text.nonempty (Text.lower (candidate r "title"))
          then "title:" +:+ Text.lower (candidate r "title")
     else "") ∧
  movies_step movie_by_key r =
    (if Text.nonempty (_stable_key r) then <[_stable_key r := r]> movie_by_key
     else movie_by_key) ∧
  vector_key r =
    (if Text.nonempty (candidate r "key") then candidate r "key" else _stable_key r) ∧
  (Text.nonempty (candidate r "key") = false → vector_key r = _stable_key r) ∧
  (Text.nonempty (candidate r "imdbId") = false →
   Text.nonempty (candidate r "id") = false →
   vector_key r = _stable_key r).
Proof.
  split; [apply _stable_key_chain |].
  split; [| split; [| split]].
  - unfold movies_step. by destruct (Text.nonempty (_stable_key r)).
  - apply vector_key_chain.
  - intros H. by rewrite vector_key_chain, H.
  - intros H1 H2. rewrite vector_key_chain, _stable_key_chain, H1, H2.
    by destruct (Text.nonempty (candidate r "key")).
Qed.

(** ** The vector coercer: proofs *)

Lemma np_shape_scalar (v : json) : np_shape v = Some [] ↔ is_scalar v = true.
Proof.
  destruct v as [| | | | |l|]; simpl; try done.
  destruct l as [|x xs]; [done |].
  destruct (np_shape x); [| done].
  by destruct (forallb _ xs).
Qed.

Lemma np_items_scalars (l : list json) :
  Forall (λ y, is_scalar y = true) l → flat_map np_items l = l.
Proof.
  induction 1 as [|y l Hy _ IH]; simpl; [done |].
  rewrite IH. by destruct y.
Qed.

Lemma np_shape_one_dim (l : list json) (sh : list nat) :
  np_shape (JArr l) = Some sh → length sh = 1 →
  sh = [length l] ∧ Forall (λ y, is_scalar y = true) l.
Proof.
  destruct l as [|x xs]; simpl.
  - intros [= <-] _. by split.
  - destruct (np_shape x) as [s|] eqn:Hx; [| done].
    destruct (forallb _ xs) eqn:Hall; [| done].
    intros [= <-]. simpl. intros Hlen.
    destruct s; [| done]. split; [done |].
    constructor; [by apply np_shape_scalar |].
    apply Forall_forall. intros y Hy.
    rewrite forallb_forall in Hall. specialize (Hall y).
    rewrite <- list_elem_of_In in Hall. specialize (Hall Hy).
    unfold shape_eqb in Hall. destruct (np_shape y) as [sy|] eqn:E; [| done].
    apply bool_decide_eq_true in Hall as ->. by apply np_shape_scalar.
Qed.

Lemma np_asarray_one_dim (l : list json) (arr : ndarray) :
  np_asarray_f32 l = Some arr → ndim arr = 1 →
  shape arr = [length l] ∧ mapM f32_of_item l = Some (data arr) ∧
  length (data arr) = length l.
Proof.
  unfold np_asarray_f32, ndim.
  destruct (np_shape (JArr l)) as [sh|] eqn:Hsh; [| done].
  destruct (mapM f32_of_item (np_items (JArr l))) as [xs|] eqn:Hxs; [| done].
  intros [= <-]. simpl. intros Hlen.
  destruct (np_shape_one_dim _ _ Hsh Hlen) as [-> Hall].
  simpl in Hxs. rewrite (np_items_scalars _ Hall) in Hxs.
  split; [done |]. split; [done |]. symmetry. by eapply length_mapM.
Qed.

Lemma _coerce_vector_verdict (v : json) (expected_dim : option nat) :
  _coerce_vector v expected_dim =
  match coercer_verdict v expected_dim with
  | inl _ => None
  | inr arr => Some arr
  end.
Proof.
  destruct v as [| | | | |l|]; try done.
  destruct l as [|x l']; [done |].
  unfold _coerce_vector, coercer_verdict, dim_differs.
  change (length (x :: l') =? 0)%nat with false. cbv iota.
  assert (Hd : (match expected_dim with
                | Some d => negb (length (x :: l') =? d)%nat
                | None => false
                end) =
               (match expected_dim with
                | Some d => negb (bool_decide (length (x :: l') = d))
                | None => false
                end)).
  { destruct expected_dim as [d|]; [| done].
    f_equal. destruct (Nat.eqb_spec (length (x :: l')) d);
      [by rewrite bool_decide_eq_true_2 | by rewrite bool_decide_eq_false_2]. }
  rewrite Hd. clear Hd.
  destruct (match expected_dim with Some _ => _ | None => _ end); [done |].
  destruct (np_asarray_f32 (x :: l')) as [arr|]; [| done].
  destruct (Nat.eqb_spec (ndim arr) 1);
    [rewrite bool_decide_eq_true_2 by done | by rewrite bool_decide_eq_false_2].
  simpl. by destruct (forallb isfinite (data arr)).
Qed.

Lemma forallb_false_elem {A : Type} (f : A → bool) (l : list A) :
  forallb f l = false ↔ ∃ x, x ∈ l ∧ f x = false.
Proof.
  induction l as [|y l IH]; simpl.
  - split; [done | by intros (x & ?%elem_of_nil & _)].
  - rewrite andb_false_iff, IH. split.
    + intros [Hy | (x & Hx & Hfx)].
      * exists y. split; [left | done].
      * exists x. split; [by right | done].
    + intros (x & [-> | Hx]%elem_of_cons & Hfx); [by left |].
      right. by exists x.
Qed.

(** C8: the coercer rejects exactly when the value is not a list or is
    empty, or a dimension is expected and the length differs, or NumPy
    cannot convert the list, or the array is not one-dimensional, or an
    item is not finite; these are tried in this order; and what it accepts
    is the array of the items converted to [float32], one per element, in
    order. *)
Theorem C8_vector_coercer (v : json) (expected_dim : option nat) :
  (_coerce_vector v expected_dim = None ↔
     (∀ l, v = JArr l → l = []) ∨
     (∃ l d, v = JArr l ∧ expected_dim = Some d ∧ length l ≠ d) ∨
     (∃ l, v = JArr l ∧ np_asarray_f32 l = None) ∨
     (∃ l arr, v = JArr l ∧ np_asarray_f32 l = Some arr ∧ ndim arr ≠ 1) ∨
     (∃ l arr x, v = JArr l ∧ np_asarray_f32 l = Some arr ∧
                 x ∈ data arr ∧ isfinite x = false)) ∧
  _coerce_vector v expected_dim =
    match coercer_verdict v expected_dim with
    | inl _ => None
    | inr arr => Some arr
    end ∧
  (∀ arr, _coerce_vector v expected_dim = Some arr →
     ∃ l, v = JArr l ∧ np_asarray_f32 l = Some arr ∧
          shape arr = [length l] ∧ mapM f32_of_item l = Some (data arr)).
Proof.
  split; [| split; [apply _coerce_vector_verdict |]].
  - destruct v as [| | | | |l|];
      try (split; [intros _; left; intros l' [=] | done]).
    unfold _coerce_vector.
    destruct (Nat.eqb_spec (length l) 0) as [H0|H0].
    { split; [| done]. intros _. left. intros l' [= <-].
      by apply length_zero_iff_nil. }
    assert (Hne : l ≠ []) by (intros ->; done).
    destruct expected_dim as [d|].
    + destruct (Nat.eqb_spec (length l) d) as [Hd|Hd]; simpl.
      2: { split; [| done]. intros _. right. left. by exists l, d. }
      destruct (np_asarray_f32 l) as [arr|] eqn:Harr.
      2: { split; [| done]. intros _. right. right. left. by exists l. }
      destruct (Nat.eqb_spec (ndim arr) 1) as [H1|H1]; simpl.
      2: { split; [| done]. intros _. do 3 right. left. by exists l, arr. }
      destruct (forallb isfinite (data arr)) eqn:Hfin; simpl.
      2: { split; [| done]. intros _. do 4 right.
           apply forallb_false_elem in Hfin as (x & Hx & Hfx).
           by exists l, arr, x. }
      split; [done |].
      intros [H | [(l' & d' & [= <-] & [= <-] & H) | [(l' & [= <-] & H)
               | [(l' & arr' & [= <-] & H & H') | (l' & arr' & x & [= <-] & H & Hx & Hfx)]]]].
      * by specialize (H l eq_refl).
      * done.
      * congruence.
      * congruence.
      * assert (arr' = arr) as -> by congruence.
        assert (forallb isfinite (data arr) = false); [| congruence].
        apply forallb_false_elem. by exists x.
    + destruct (np_asarray_f32 l) as [arr|] eqn:Harr.
      2: { split; [| done]. intros _. right. right. left. by exists l. }
      destruct (Nat.eqb_spec (ndim arr) 1) as [H1|H1]; simpl.
      2: { split; [| done]. intros _. do 3 right. left. by exists l, arr. }
      destruct (forallb isfinite (data arr)) eqn:Hfin; simpl.
      2: { split; [| done]. intros _. do 4 right.
           apply forallb_false_elem in Hfin as (x & Hx & Hfx).
           by exists l, arr, x. }
      split; [done |].
      intros [H | [(l' & d' & _ & [=] & _) | [(l' & [= <-] & H)
               | [(l' & arr' & [= <-] & H & H') | (l' & arr' & x & [= <-] & H & Hx & Hfx)]]]].
      * by specialize (H l eq_refl).
      * congruence.
      * congruence.
      * assert (arr' = arr) as -> by congruence.
        assert (forallb isfinite (data arr) = false); [| congruence].
        apply forallb_false_elem. by exists x.
  - intros arr. destruct v as [| | | | |l|]; try done.
    unfold _coerce_vector.
    destruct (length l =? 0)%nat; [done |].
    destruct (match expected_dim with Some _ => _ | None => _ end); [done |].
    destruct (np_asarray_f32 l) as [arr'|] eqn:Harr; [| done].
    destruct (Nat.eqb_spec (ndim arr') 1) as [H1|H1]; simpl; [| done].
    destruct (forallb isfinite (data arr')); simpl; [| done].
    intros [= <-]. exists l.
    destruct (np_asarray_one_dim _ _ Harr H1) as (? & ? & _). done.
Qed.

(** ** The join table: proofs *)

Lemma movies_loop_lookup (movies_rows : list dict) (acc : gmap string dict) (k : string) :
  fold_left movies_step movies_rows acc !! k =
  if Text.nonempty k then
    match last (filter (λ m, _stable_key m = k) movies_rows) with
    | Some m => Some m
    | None => acc !! k
    end
  else acc !! k.
Proof.
  revert acc. induction movies_rows as [|m rows IH]; intros acc; cbn [fold_left].
  - by destruct (Text.nonempty k).
  - rewrite IH. unfold movies_step.
    destruct (decide (_stable_key m = k)) as [Hk|Hk].
    + rewrite filter_cons_True by done. rewrite last_cons.
      destruct (Text.nonempty k) eqn:Hne; rewrite Hk, Hne; simpl; [| done].
      destruct (last (filter _ rows)); [done |]. apply lookup_insert_eq.
    + rewrite filter_cons_False by done.
      destruct (Text.nonempty (_stable_key m)); simpl; [| done].
      by rewrite lookup_insert_ne.
Qed.

Lemma movie_by_key_last (movies_rows : list dict) (k : string) :
  build_movie_by_key movies_rows !! k =
  if Text.nonempty k then last (filter (λ m, _stable_key m = k) movies_rows) else None.
Proof.
  unfold build_movie_by_key. rewrite movies_loop_lookup, lookup_empty.
  destruct (Text.nonempty k); [| done].
  by destruct (last _).
Qed.

(** ** The join loop: proofs *)

Lemma join_step_vec_of (movie_by_key : gmap string dict) (d : nat)
    (st : join_state) (r : dict) :
  join_step movie_by_key d st r =
  match vec_of d r with
  | Some vec =>
      {| vectors := vectors st ++ [vec];
         metas := metas st ++ [item_of movie_by_key r];
         skipped := skipped st |}
  | None =>
      {| vectors := vectors st; metas := metas st; skipped := skipped st + 1 |}
  end.
Proof.
  unfold join_step, vec_of, item_of.
  destruct (Text.nonempty (vector_key r)); simpl; [| done].
  by destruct (_coerce_vector _ _).
Qed.

Lemma join_fold (movie_by_key : gmap string dict) (d : nat)
    (vector_rows : list dict) (st : join_state) :
  let st' := fold_left (join_step movie_by_key d) vector_rows st in
  vectors st' = vectors st ++ map snd (kept d vector_rows) ∧
  metas st' = metas st ++ map (λ rv, item_of movie_by_key (fst rv)) (kept d vector_rows) ∧
  skipped st' + length (kept d vector_rows) = skipped st + length vector_rows.
Proof.
  revert st. induction vector_rows as [|r rows IH]; intros st; cbn [fold_left kept].
  - simpl. rewrite !app_nil_r. split; [done |]. split; [done | lia].
  - cbv zeta. rewrite join_step_vec_of.
    destruct (vec_of d r) as [vec|].
    + destruct (IH {| vectors := vectors st ++ [vec];
                      metas := metas st ++ [item_of movie_by_key r];
                      skipped := skipped st |}) as (-> & -> & Hs).
      simpl in *. rewrite <- !app_assoc. split; [done |]. split; [done | lia].
    + destruct (IH {| vectors := vectors st; metas := metas st;
                      skipped := skipped st + 1 |}) as (-> & -> & Hs).
      simpl in *. split; [done |]. split; [done | lia].
Qed.

Lemma join_loop_kept (movie_by_key : gmap string dict) (d : nat) (vector_rows : list dict) :
  let st := join_loop movie_by_key d vector_rows in
  vectors st = map snd (kept d vector_rows) ∧
  metas st = map (λ rv, item_of movie_by_key (fst rv)) (kept d vector_rows) ∧
  skipped st + length (kept d vector_rows) = length vector_rows.
Proof.
  unfold join_loop.
  pose proof (join_fold movie_by_key d vector_rows
                {| vectors := []; metas := []; skipped := 0 |}) as H.
  cbv zeta in *. simpl in H. exact H.
Qed.

Lemma kept_sublist (d : nat) (vector_rows : list dict) :
  sublist (map fst (kept d vector_rows)) vector_rows.
Proof.
  induction vector_rows as [|r rows IH]; simpl; [constructor |].
  destruct (vec_of d r); simpl; by constructor.
Qed.

Lemma kept_elem (d : nat) (vector_rows : list dict) (r : dict) (vec : ndarray) :
  (r, vec) ∈ kept d vector_rows → r ∈ vector_rows ∧ vec_of d r = Some vec.
Proof.
  induction vector_rows as [|r' rows IH]; simpl; [by intros ?%elem_of_nil |].
  destruct (vec_of d r') as [vec'|] eqn:E.
  - intros [[= -> ->] | H]%elem_of_cons.
    + split; [left | done].
    + destruct (IH H). split; [by right | done].
  - intros H. destruct (IH H). split; [by right | done].
Qed.

Lemma vec_of_shape (d : nat) (r : dict) (vec : ndarray) :
  vec_of d r = Some vec →
  Text.nonempty (vector_key r) = true ∧
  _coerce_vector (py_get r "vector") (Some d) = Some vec ∧
  shape vec = [d] ∧ length (data vec) = d.
Proof.
  unfold vec_of. destruct (Text.nonempty (vector_key r)); [| done].
  intros H. split; [done |]. split; [done |].
  destruct (py_get r "vector") as [| | | | |l|]; try done.
  unfold _coerce_vector in H.
  destruct (length l =? 0)%nat; [done |].
  destruct (Nat.eqb_spec (length l) d) as [Hd|Hd]; simpl in H; [| done].
  destruct (np_asarray_f32 l) as [arr|] eqn:Harr; [| done].
  destruct (Nat.eqb_spec (ndim arr) 1) as [H1|H1]; simpl in H; [| done].
  destruct (forallb isfinite (data arr)); simpl in H; [| done].
  injection H as <-.
  destruct (np_asarray_one_dim _ _ Harr H1) as (Hs & _ & Hl).
  rewrite Hs, Hl. by rewrite Hd.
Qed.

Lemma normalize_rows (vs : list ndarray) :
  normalize vs = map (λ v, normalize_row (data v)) vs.
Proof.
  unfold normalize, normalize_row.
  induction vs as [|v vs IH]; simpl; [done |].
  f_equal. exact IH.
Qed.


(** ** The pipeline: proofs *)

Lemma map_lookup {A B : Type} (f : A → B) (l : list A) (i : nat) :
  map f l !! i = f <$> l !! i.
Proof.
  revert i. induction l as [|x l IH]; intros [|i]; simpl; done.
Qed.

(** The outcome of a run, case by case. *)
Lemma build_result (fs : filesystem) (movies_ndjson vectors_ndjson out_index out_meta : path) :
  build_faiss_index fs movies_ndjson vectors_ndjson out_index out_meta =
  let vector_rows := _iter_ndjson fs vectors_ndjson in
  if is_nil vector_rows then ([], inl (NoVectorsFound vectors_ndjson)) else
  match infer_dim vector_rows with
  | None => ([], inl (NoValidVectorsFound vectors_ndjson))
  | Some d =>
      let st := join_loop (build_movie_by_key (_iter_ndjson fs movies_ndjson)) d vector_rows in
      if is_nil (vectors st) then ([], inl NoValidVectorsToIndex)
      else (success_trace out_index out_meta d st, inr tt)
  end.
Proof.
  unfold build_faiss_index, infer_dimension. cbv zeta.
  destruct (is_nil (_iter_ndjson fs vectors_ndjson)); [done |].
  destruct (infer_dim (_iter_ndjson fs vectors_ndjson)) as [d|]; [| done].
  simpl. by destruct (is_nil (vectors _)).
Qed.

Lemma build_success (fs : filesystem) (movies_ndjson vectors_ndjson out_index out_meta : path)
    (tr : list event) :
  build_faiss_index fs movies_ndjson vectors_ndjson out_index out_meta = (tr, inr tt) →
  ∃ d,
    _iter_ndjson fs vectors_ndjson ≠ [] ∧
    infer_dim (_iter_ndjson fs vectors_ndjson) = Some d ∧
    vectors (join_loop (build_movie_by_key (_iter_ndjson fs movies_ndjson)) d
               (_iter_ndjson fs vectors_ndjson)) ≠ [] ∧
    tr = success_trace out_index out_meta d
           (join_loop (build_movie_by_key (_iter_ndjson fs movies_ndjson)) d
              (_iter_ndjson fs vectors_ndjson)).
Proof.
  rewrite build_result. cbv zeta.
  destruct (_iter_ndjson fs vectors_ndjson) as [|r rows] eqn:Hrows; [done |].
  simpl is_nil. cbv iota.
  destruct (infer_dim (r :: rows)) as [d|]; [| done].
  destruct (vectors (join_loop _ d (r :: rows))) eqn:Hv; [done |]. simpl is_nil. cbv iota.
  intros [= <-]. exists d. by rewrite Hv.
Qed.

(** C10: the join loop counts every record once, as kept or as skipped,
    so the sidecar a run writes has [count + skipped] equal to the number of
    records read from the vectors dataset. *)
Theorem C10_count_plus_skipped (fs : filesystem)
    (movies_ndjson vectors_ndjson out_index out_meta : path) (tr : list event) :
  build_faiss_index fs movies_ndjson vectors_ndjson out_index out_meta = (tr, inr tt) →
  (∀ movie_by_key d vector_rows,
     length (metas (join_loop movie_by_key d vector_rows))
       + skipped (join_loop movie_by_key d vector_rows) = length vector_rows) ∧
  ∃ doc,
    EWriteText out_meta doc ∈ tr ∧
    (∀ p doc', EWriteText p doc' ∈ tr → doc' = doc) ∧
    meta_count doc = length (meta_items doc) ∧
    meta_count doc + meta_skipped doc = length (_iter_ndjson fs vectors_ndjson).
Proof.
  intros Hrun.
  assert (Hloop : ∀ movie_by_key d vector_rows,
     length (metas (join_loop movie_by_key d vector_rows))
       + skipped (join_loop movie_by_key d vector_rows) = length vector_rows).
  { intros mbk d rows.
    destruct (join_loop_kept mbk d rows) as (_ & -> & Hs).
    rewrite length_map. lia. }
  split; [exact Hloop |].
  apply build_success in Hrun as (d & _ & _ & _ & ->).
  eexists. split; [| split; [| split]].
  - unfold success_trace. do 3 right. left.
  - unfold success_trace. intros p doc' H.
    repeat (apply elem_of_cons in H as [H | H]; [by inversion H |]).
    by apply elem_of_nil in H.
  - done.
  - simpl. apply Hloop.
Qed.



(** ** The inferred dimension: proofs *)




(** C3: the [i]-th item of the sidecar and the [i]-th row of the index
    come from the same record, the [i]-th of the records the loop keeps in
    file order: the item is the one composed for it, the row is its coerced
    vector divided by its norm; and the sidecar's count is the number of
    rows of the index. *)
Theorem C3_items_align_with_rows (fs : filesystem)
    (movies_ndjson vectors_ndjson out_index out_meta : path) (tr : list event) :
  build_faiss_index fs movies_ndjson vectors_ndjson out_index out_meta = (tr, inr tt) →
  let vector_rows := _iter_ndjson fs vectors_ndjson in
  let movie_by_key := build_movie_by_key (_iter_ndjson fs movies_ndjson) in
  ∃ d index doc,
    infer_dim vector_rows = Some d ∧
    tr = [ EMkdirParent out_index; EWriteIndex out_index index;
           EMkdirParent out_meta; EWriteText out_meta doc;
           EPrint (summary_line (meta_count doc) (meta_skipped doc) d);
           EPrint ("[OK] Wrote: " +:+ out_index);
           EPrint ("[OK] Wrote: " +:+ out_meta) ] ∧
    meta_count doc = length (index_rows index) ∧
    meta_count doc = length (meta_items doc) ∧
    meta_count doc = length (kept d vector_rows) ∧
    sublist (map fst (kept d vector_rows)) vector_rows ∧
    ∀ i, i < meta_count doc →
      ∃ r vec,
        kept d vector_rows !! i = Some (r, vec) ∧
        Text.nonempty (vector_key r) = true ∧
        _coerce_vector (py_get r "vector") (Some d) = Some vec ∧
        meta_items doc !! i = Some (item_of movie_by_key r) ∧
        index_rows index !! i = Some (normalize_row (data vec)).
Proof.
  intros Hrun. cbv zeta.
  apply build_success in Hrun as (d & _ & Hd & _ & ->).
  set (mbk := build_movie_by_key _). set (rows := _iter_ndjson fs vectors_ndjson) in *.
  exists d, (final_index d (join_loop mbk d rows)), (final_meta d (join_loop mbk d rows)).
  destruct (join_loop_kept mbk d rows) as (Hv & Hm & _).
  split; [done |]. split; [done |].
  unfold final_index, final_meta, index_add. simpl.
  rewrite normalize_rows, Hv, Hm, !length_map.
  split; [done |]. split; [done |]. split; [done |].
  split; [apply kept_sublist |].
  intros i Hi.
  destruct (lookup_lt_is_Some_2 (kept d rows) i Hi) as [[r vec] Hrv].
  exists r, vec. split; [done |].
  assert (Hin : (r, vec) ∈ kept d rows) by (apply list_elem_of_lookup; eauto).
  apply kept_elem in Hin as [_ Hvec].
  apply vec_of_shape in Hvec as (Hk & Hc & _ & _).
  split; [done |]. split; [done |].
  rewrite !map_lookup, Hrv. done.
Qed.

(** ** Composing the items: proofs *)

Lemma joined_movie_Some (movie_by_key : gmap string dict) (key : string) (m : dict) :
  movie_by_key !! key = Some m → joined_movie movie_by_key key = m.
Proof. unfold joined_movie. intros ->. by destruct m. Qed.

Lemma joined_movie_None (movie_by_key : gmap string dict) (key : string) :
  movie_by_key !! key = None → joined_movie movie_by_key key = [].
Proof. unfold joined_movie. by intros ->. Qed.

Lemma kept_filter (d : nat) (vector_rows : list dict) :
  map fst (kept d vector_rows) = filter (λ r, is_Some (vec_of d r)) vector_rows.
Proof.
  induction vector_rows as [|r rows IH]; simpl; [done |].
  destruct (vec_of d r) as [vec|] eqn:E.
  - rewrite filter_cons_True by (rewrite E; eauto). simpl. by rewrite IH.
  - rewrite filter_cons_False; [done |]. rewrite E. by intros [? ?].
Qed.

(** C2, as the code has it: in the item of a kept record whose key is
    bound in the join table, each of [title], [year], [genre],
    [productionCountry], [imdbId] and [id] is the movie's value when that
    value is true in Python's sense (present, and not null, false, zero or
    empty), and the vector record's own field otherwise, null when it has
    none; [moodTags] is chosen the same way and is the empty list when both
    values are false. *)
Theorem C2_truthy_movie_fields_win (fs : filesystem)
    (movies_ndjson vectors_ndjson out_index out_meta : path) (tr : list event) :
  build_faiss_index fs movies_ndjson vectors_ndjson out_index out_meta = (tr, inr tt) →
  let vector_rows := _iter_ndjson fs vectors_ndjson in
  let movie_by_key := build_movie_by_key (_iter_ndjson fs movies_ndjson) in
  ∃ d doc,
    infer_dim vector_rows = Some d ∧
    EWriteText out_meta doc ∈ tr ∧
    (∀ p doc', EWriteText p doc' ∈ tr → doc' = doc) ∧
    ∀ i item, meta_items doc !! i = Some item →
      ∃ r vec,
        kept d vector_rows !! i = Some (r, vec) ∧
        item_key item = vector_key r ∧
        ∀ m, movie_by_key !! item_key item = Some m →
          let choose (field : string) : json :=
            if truthy (py_get m field) then py_get m field else py_get r field in
          item_title item = choose "title" ∧
          item_year item = choose "year" ∧
          item_genre item = choose "genre" ∧
          item_productionCountry item = choose "productionCountry" ∧
          item_imdbId item = choose "imdbId" ∧
          item_id item = choose "id" ∧
          item_moodTags item =
            (if truthy (choose "moodTags") then choose "moodTags" else JArr []).
Proof.
  intros Hrun. cbv zeta.
  apply build_success in Hrun as (d & _ & Hd & _ & ->).
  set (mbk := build_movie_by_key _). set (rows := _iter_ndjson fs vectors_ndjson) in *.
  exists d, (final_meta d (join_loop mbk d rows)).
  split; [done |]. split; [unfold success_trace; do 3 right; left |]. split.
  { unfold success_trace. intros p doc' H.
    repeat (apply elem_of_cons in H as [H | H]; [by inversion H |]).
    by apply elem_of_nil in H. }
  intros i item. unfold final_meta. simpl.
  destruct (join_loop_kept mbk d rows) as (_ & -> & _).
  rewrite map_lookup.
  destruct (kept d rows !! i) as [[r vec]|] eqn:Hi; [| done].
  simpl. intros [= <-]. exists r, vec. split; [done |]. split; [done |].
  unfold item_of. simpl. intros m Hm. rewrite (joined_movie_Some _ _ _ Hm).
  unfold make_meta, py_or. simpl. done.
Qed.

(** C4, as the code has it: the join table binds each key that is not
    empty to the last movie record, in file order, that resolves to it, and
    binds nothing else; the join loop merges nothing: every vector record
    with a key that is not empty and a valid vector gets a row and an item
    of its own, in file order, records that share a key included. *)
Theorem C4_last_movie_every_vector (movies_rows vector_rows : list dict)
    (movie_by_key : gmap string dict) (d : nat) (k : string) :
  build_movie_by_key movies_rows !! k =
    (if Text.nonempty k then last (filter (λ m, _stable_key m = k) movies_rows)
     else None) ∧
  metas (join_loop movie_by_key d vector_rows) =
    map (item_of movie_by_key) (filter (λ r, is_Some (vec_of d r)) vector_rows) ∧
  length (vectors (join_loop movie_by_key d vector_rows)) =
    length (filter (λ r, is_Some (vec_of d r)) vector_rows) ∧
  length (filter (λ item, item_key item = k) (metas (join_loop movie_by_key d vector_rows))) =
    length (filter (λ r, vector_key r = k)
              (filter (λ r, is_Some (vec_of d r)) vector_rows)).
Proof.
  split; [apply movie_by_key_last |].
  destruct (join_loop_kept movie_by_key d vector_rows) as (Hv & Hm & _).
  assert (Hmetas : metas (join_loop movie_by_key d vector_rows) =
            map (item_of movie_by_key) (filter (λ r, is_Some (vec_of d r)) vector_rows)).
  { rewrite Hm, <- kept_filter, map_map. done. }
  split; [exact Hmetas |]. split.
  - by rewrite Hv, <- kept_filter, !length_map.
  - rewrite Hmetas. generalize (filter (λ r, is_Some (vec_of d r)) vector_rows).
    intros l. induction l as [|r l IH]; simpl; [done |].
    destruct (decide (vector_key r = k)) as [Hk|Hk].
    + rewrite !filter_cons_True by done. simpl. by rewrite IH.
    + rewrite !filter_cons_False by done. exact IH.
Qed.

(** ** The record reader: line numbers and concatenation *)

Lemma line_of_annotate (i : nat) (o : dict) : line_of (annotate i o) = Z.of_nat (S i).
Proof.
  unfold line_of, py_get, annotate. rewrite dict_lookup_set. lia.
Qed.

Lemma dict_set_set (d : dict) (k : string) (v v' : json) :
  dict_set (dict_set d k v) k v' = dict_set d k v'.
Proof.
  induction d as [|[k0 v0] d IH]; simpl.
  - by rewrite String.eqb_refl.
  - destruct (String.eqb k0 k) eqn:E; simpl; rewrite E; [done |]. by rewrite IH.
Qed.

Lemma read_lines_length (il : list (nat * string)) :
  (length (read_lines il) ≤ length il)%nat.
Proof.
  induction il as [|[i line] il IH]; simpl; [done |].
  destruct (accepts line); simpl; lia.
Qed.

Lemma enumerate_from_length {A : Type} (k : nat) (l : list A) :
  length (enumerate_from k l) = length l.
Proof. revert k. induction l as [|x l IH]; intros k; simpl; [done |]. by rewrite IH. Qed.

Lemma read_lines_numbers (k : nat) (lines : list string) :
  StronglySorted Z.lt (map line_of (read_lines (enumerate_from k lines))) ∧
  Forall (λ n, (Z.of_nat k < n ≤ Z.of_nat (k + length lines))%Z)
         (map line_of (read_lines (enumerate_from k lines))).
Proof.
  revert k. induction lines as [|line lines IH]; intros k; simpl.
  - split; constructor.
  - destruct (IH (S k)) as [Hs Hb].
    assert (Hb' : Forall (λ n, (Z.of_nat k < n ≤ Z.of_nat (k + S (length lines)))%Z)
                    (map line_of (read_lines (enumerate_from (S k) lines)))).
    { eapply Forall_impl; [exact Hb |]. simpl. intros n Hn. lia. }
    destruct (accepts line) as [o|]; simpl; [| done].
    rewrite line_of_annotate. split.
    + constructor; [exact Hs |].
      eapply Forall_impl; [exact Hb |]. simpl. intros n Hn. lia.
    + constructor; [lia | exact Hb'].
Qed.

(** X1: the records read from a file are no more than its lines, and the
    line numbers they carry increase strictly along the result and lie
    between one and the number of lines. *)
Theorem reader_line_numbers_increase (fs : filesystem) (p : path) (lines : list string) :
  fs !! p = Some lines →
  (length (_iter_ndjson fs p) ≤ length lines)%nat ∧
  StronglySorted Z.lt (map line_of (_iter_ndjson fs p)) ∧
  Forall (λ n, (1 ≤ n ≤ Z.of_nat (length lines))%Z) (map line_of (_iter_ndjson fs p)).
Proof.
  intros Hp. unfold _iter_ndjson. rewrite Hp, ndjson_loop. simpl.
  unfold enumerate. split; [| split].
  - etrans; [apply read_lines_length |]. by rewrite enumerate_from_length.
  - apply read_lines_numbers.
  - eapply Forall_impl; [apply read_lines_numbers |]. simpl. intros n Hn. lia.
Qed.

Lemma read_lines_app (il1 il2 : list (nat * string)) :
  read_lines (il1 ++ il2) = read_lines il1 ++ read_lines il2.
Proof.
  induction il1 as [|[i line] il1 IH]; simpl; [done |].
  destruct (accepts line); simpl; by rewrite IH.
Qed.

Lemma enumerate_from_app {A : Type} (k : nat) (l1 l2 : list A) :
  enumerate_from k (l1 ++ l2) =
  enumerate_from k l1 ++ enumerate_from (k + length l1) l2.
Proof.
  revert k. induction l1 as [|x l1 IH]; intros k; simpl.
  - by rewrite Nat.add_0_r.
  - rewrite IH. do 3 f_equal. lia.
Qed.

Lemma read_lines_shift (k j : nat) (lines : list string) :
  read_lines (enumerate_from (j + k) lines) =
  map (shift_line k) (read_lines (enumerate_from j lines)).
Proof.
  revert j. induction lines as [|line lines IH]; intros j; simpl; [done |].
  specialize (IH (S j)). simpl in IH.
  destruct (accepts line) as [o|]; simpl; [| exact IH].
  rewrite IH. f_equal.
  unfold shift_line. rewrite line_of_annotate. unfold annotate.
  rewrite dict_set_set. do 2 f_equal. lia.
Qed.

(** X2: reading a file made of the lines of one file followed by the
    lines of another gives the records of the first followed by the records
    of the second, the latter moved down by the number of lines of the
    first. *)
Theorem reader_of_concatenation (fs : filesystem) (a b c : path)
    (lines_a lines_b : list string) :
  fs !! a = Some lines_a →
  fs !! b = Some lines_b →
  fs !! c = Some (lines_a ++ lines_b) →
  _iter_ndjson fs c =
  _iter_ndjson fs a ++ map (shift_line (length lines_a)) (_iter_ndjson fs b).
Proof.
  intros Ha Hb Hc. unfold _iter_ndjson. rewrite Ha, Hb, Hc, !ndjson_loop. simpl.
  unfold enumerate. rewrite enumerate_from_app, read_lines_app. f_equal.
  apply (read_lines_shift (length lines_a) 0).
Qed.

(** ** Text: lower-casing keeps a text non-empty *)

Lemma nonempty_lower (s : string) : Text.nonempty (Text.lower s) = Text.nonempty s.
Proof. by destruct s. Qed.

(** ** The key resolver: which records have a key *)

(** X3: the resolver finds no key exactly when [imdbId], [id], [key] and
    [title] are all blank once read (a year alone gives none), and then the
    join loop finds none either; so a vector record is skipped for want of
    a key exactly in that case. *)
Theorem no_key_exactly_when_all_blank (r : dict) :
  (_stable_key r = "" ↔
     candidate r "imdbId" = "" ∧ candidate r "id" = "" ∧
     candidate r "key" = "" ∧ candidate r "title" = "") ∧
  (vector_key r = "" ↔ _stable_key r = "").
Proof.
  assert (Hs : _stable_key r = "" ↔
     candidate r "imdbId" = "" ∧ candidate r "id" = "" ∧
     candidate r "key" = "" ∧ candidate r "title" = "").
  { rewrite _stable_key_chain, nonempty_lower.
    destruct (candidate r "imdbId") as [|c1 s1]; simpl; [| by split; [| intros [? _]]].
    destruct (candidate r "id") as [|c2 s2]; simpl; [| by split; [| intros (_ & ? & _)]].
    destruct (candidate r "key") as [|c3 s3]; simpl; [| by split; [| intros (_ & _ & ? & _)]].
    destruct (candidate r "title") as [|c4 s4]; simpl; [by split |].
    destruct (Text.nonempty (candidate r "year")); simpl;
      (split; [done | by intros (_ & _ & _ & ?)]). }
  split; [exact Hs |].
  rewrite vector_key_chain.
  destruct (Text.nonempty (candidate r "key")) eqn:Hk; [| done].
  split.
  - intros H. rewrite H in Hk. done.
  - intros H. apply Hs in H as (_ & _ & H & _). rewrite H in Hk. done.
Qed.

(** ** The vector coercer: what it accepts, item by item *)

Lemma np_shape_scalars (l : list json) :
  l ≠ [] → Forall (λ x, is_scalar x = true) l → np_shape (JArr l) = Some [length l].
Proof.
  destruct l as [|x xs]; [done |]. intros _ Hall.
  apply Forall_cons in Hall as [Hx Hxs].
  cbn [np_shape]. apply np_shape_scalar in Hx. rewrite Hx.
  assert (Hf : forallb (λ y, shape_eqb (np_shape y) (Some [])) xs = true).
  { apply forallb_forall. intros y Hy. apply list_elem_of_In in Hy.
    rewrite Forall_forall in Hxs. specialize (Hxs y Hy).
    apply np_shape_scalar in Hxs. rewrite Hxs. reflexivity. }
  by rewrite Hf.
Qed.

Lemma forallb_Forall_true {A : Type} (f : A → bool) (l : list A) :
  forallb f l = true ↔ Forall (λ y, f y = true) l.
Proof.
  induction l as [|y l IH]; simpl; [by split |].
  rewrite andb_true_iff, Forall_cons, IH. done.
Qed.

Lemma coerce_vector_accepted (l : list json) (expected_dim : option nat) (arr : ndarray) :
  _coerce_vector (JArr l) expected_dim = Some arr →
  l ≠ [] ∧
  (∀ d, expected_dim = Some d → length l = d) ∧
  Forall (λ x, is_scalar x = true) l ∧
  mapM f32_of_item l = Some (data arr) ∧
  shape arr = [length l] ∧
  Forall (λ y, isfinite y = true) (data arr).
Proof.
  unfold _coerce_vector.
  destruct (Nat.eqb_spec (length l) 0) as [H0|H0]; [done |].
  assert (Hne : l ≠ []) by (intros ->; done).
  intros H.
  assert (Hdim : ∀ d, expected_dim = Some d → length l = d).
  { intros d ->. by destruct (Nat.eqb_spec (length l) d). }
  assert (H' : match np_asarray_f32 l with
               | Some arr0 =>
                   if negb (ndim arr0 =? 1)%nat then None
                   else if negb (forallb isfinite (data arr0)) then None else Some arr0
               | None => None
               end = Some arr).
  { destruct expected_dim as [d|]; [| exact H].
    by destruct (Nat.eqb_spec (length l) d). }
  clear H.
  destruct (np_asarray_f32 l) as [arr'|] eqn:Harr; [| done].
  destruct (Nat.eqb_spec (ndim arr') 1) as [H1|H1]; simpl in H'; [| done].
  destruct (forallb isfinite (data arr')) eqn:Hfin; simpl in H'; [| done].
  injection H' as <-.
  destruct (np_asarray_one_dim _ _ Harr H1) as (Hs & Hm & _).
  split; [done |]. split; [done |]. split.
  + unfold np_asarray_f32 in Harr.
    destruct (np_shape (JArr l)) as [sh|] eqn:Hsh; [| done].
    destruct (mapM f32_of_item (np_items (JArr l))); [| done].
    injection Harr as <-. by apply (np_shape_one_dim l sh).
  + split; [done |]. split; [done |]. by apply forallb_Forall_true.
Qed.

(** X5: a list is accepted exactly when it is not empty, has the expected
    length if one is given, holds no nested list, and each of its items
    converts to a finite [float32]; the array is then one-dimensional and
    holds these conversions in order. *)
Theorem coercer_accepts_exactly (l : list json) (expected_dim : option nat)
    (arr : ndarray) :
  _coerce_vector (JArr l) expected_dim = Some arr ↔
    l ≠ [] ∧
    (∀ d, expected_dim = Some d → length l = d) ∧
    Forall (λ x, is_scalar x = true) l ∧
    mapM f32_of_item l = Some (data arr) ∧
    shape arr = [length l] ∧
    Forall (λ y, isfinite y = true) (data arr).
Proof.
  split; [apply coerce_vector_accepted |]. unfold _coerce_vector.
  intros (Hne & Hdim & Hsc & Hm & Hs & Hfin).
  destruct (Nat.eqb_spec (length l) 0) as [H0|H0].
  { by apply length_zero_iff_nil in H0. }
  assert (Hd : match expected_dim with
               | Some d => negb (length l =? d)%nat
               | None => false
               end = false).
  { destruct expected_dim as [d|]; [| done].
    rewrite (Hdim d eq_refl). by rewrite Nat.eqb_refl. }
  rewrite Hd.
  assert (Harr : np_asarray_f32 l = Some arr).
  { unfold np_asarray_f32. rewrite (np_shape_scalars l Hne Hsc).
    cbn [np_items]. rewrite (np_items_scalars l Hsc), Hm.
    destruct arr as [sh dt]. simpl in *. by rewrite Hs. }
  rewrite Harr. unfold ndim. rewrite Hs. simpl.
  apply forallb_Forall_true in Hfin. by rewrite Hfin.
Qed.

(** X6: a list that holds a null, a NaN, an infinity, a nested list or an
    object is rejected, whatever else it holds and whatever dimension is
    expected. *)
Theorem coercer_rejects_bad_items (l : list json) (expected_dim : option nat) (x : json) :
  x ∈ l →
  x = JNull ∨ x = JFloat S754_nan ∨ (∃ s, x = JFloat (S754_infinity s)) ∨
    (∃ l', x = JArr l') ∨ (∃ o, x = JObj o) →
  _coerce_vector (JArr l) expected_dim = None.
Proof.
  intros Hx Hbad.
  destruct (_coerce_vector (JArr l) expected_dim) as [arr|] eqn:Hc; [| done].
  exfalso. apply coerce_vector_accepted in Hc as (_ & _ & Hsc & Hm & _ & Hfin).
  apply list_elem_of_lookup in Hx as [i Hi].
  apply mapM_Some_1 in Hm.
  destruct (Forall2_lookup_l _ _ _ _ _ Hm Hi) as (y & Hy & Hxy).
  rewrite Forall_forall in Hsc. rewrite Forall_forall in Hfin.
  assert (Hys : isfinite y = true).
  { apply Hfin. apply list_elem_of_lookup. eauto. }
  assert (Hxs : is_scalar x = true).
  { apply Hsc. apply list_elem_of_lookup. eauto. }
  destruct Hbad as [-> | [-> | [[s ->] | [[l' ->] | [o ->]]]]]; simpl in *.
  - injection Hxy as <-. done.
  - injection Hxy as <-. done.
  - injection Hxy as <-. done.
  - done.
  - done.
Qed.

(** ** The pipeline: when it succeeds, and what it writes then *)


Lemma vec_of_is_Some (d : nat) (r : dict) :
  is_Some (vec_of d r) ↔
  Text.nonempty (vector_key r) = true ∧
  is_Some (_coerce_vector (py_get r "vector") (Some d)).
Proof.
  unfold vec_of. destruct (Text.nonempty (vector_key r)).
  - split; [by split | by intros [_ ?]].
  - split; [by intros [? ?] | by intros [? _]].
Qed.


Lemma item_of_unmatched (movie_by_key : gmap string dict) (r : dict) :
  movie_by_key !! vector_key r = None →
  item_of movie_by_key r = own_item r (vector_key r).
Proof.
  intros H. unfold item_of. by rewrite (joined_movie_None _ _ H).
Qed.

(** X8: a kept record whose key is bound to no movie gets an item made of
    its own fields, null for those it lacks and the empty list for
    [moodTags]; so when the movies file does not exist, the sidecar of a
    run that succeeds holds exactly these items, one per kept record. *)
Theorem missing_movies_items_are_own_fields (fs : filesystem)
    (movies_ndjson vectors_ndjson out_index out_meta : path) (tr : list event) :
  fs !! movies_ndjson = None →
  build_faiss_index fs movies_ndjson vectors_ndjson out_index out_meta = (tr, inr tt) →
  (∀ movie_by_key r, movie_by_key !! vector_key r = None →
     item_of movie_by_key r = own_item r (vector_key r)) ∧
  ∃ d doc,
    infer_dim (_iter_ndjson fs vectors_ndjson) = Some d ∧
    EWriteText out_meta doc ∈ tr ∧
    meta_items doc =
      map (λ r, own_item r (vector_key r))
          (filter (λ r, is_Some (vec_of d r)) (_iter_ndjson fs vectors_ndjson)).
Proof.
  intros Hmissing Hrun. split; [apply item_of_unmatched |].
  apply build_success in Hrun as (d & _ & Hd & _ & ->).
  exists d, (final_meta d (join_loop
               (build_movie_by_key (_iter_ndjson fs movies_ndjson)) d
               (_iter_ndjson fs vectors_ndjson))).
  split; [done |]. split; [unfold success_trace; do 3 right; left |].
  unfold final_meta. simpl.
  destruct (join_loop_kept (build_movie_by_key (_iter_ndjson fs movies_ndjson)) d
              (_iter_ndjson fs vectors_ndjson)) as (_ & -> & _).
  rewrite <- kept_filter, map_map.
  apply map_ext. intros [r vec]. simpl.
  apply item_of_unmatched.
  unfold _iter_ndjson at 1. rewrite Hmissing. apply lookup_empty.
Qed.

(** ** Normalisation: the divisor *)

Lemma SFdiv_zero_one (s : bool) : SFdiv 24 128 (S754_zero s) f32_one = S754_zero s.
Proof. by destruct s. Qed.

(** X9: each row the run stores is the kept vector divided, item by item,
    by a divisor that is never zero: the row's norm, or one when the norm
    is zero; and a row of zeros whose norm is zero is stored as it is. *)
Theorem normalize_divides_by_nonzero (vs : list ndarray) :
  length (normalize vs) = length vs ∧
  ∀ i v, vs !! i = Some v →
    normalize vs !! i = Some (map (λ x, SFdiv 24 128 x (divisor (data v))) (data v)) ∧
    SFeqb (divisor (data v)) f32_zero = false ∧
    (SFeqb (linalg_norm (data v)) f32_zero = true →
     Forall (λ x, ∃ s, x = S754_zero s) (data v) →
     normalize vs !! i = Some (data v)).
Proof.
  rewrite normalize_rows, length_map. split; [done |].
  intros i v Hi. rewrite map_lookup, Hi. simpl.
  unfold normalize_row, divisor. cbv zeta. split; [done |]. split.
  - by destruct (SFeqb (linalg_norm (data v)) f32_zero) eqn:E.
  - intros Hn Hz. rewrite map_lookup, Hi. simpl. rewrite Hn. f_equal.
    revert Hz. generalize (data v). intros row Hz.
    induction Hz as [|x row' [s ->] _ IH]; cbn [map]; [done |].
    by rewrite SFdiv_zero_one, IH.
Qed.

(** ** Normalisation: what a run stores *)






(** ** The record reader on every file *)







(** ** The pipeline: no record, and what every sidecar satisfies *)






Lemma infer_dim_positive (vector_rows : list dict) (d : nat) :
  infer_dim vector_rows = Some d → (0 < d)%nat.
Proof.
  induction vector_rows as [|r rows IH]; simpl; [done |].
  destruct (py_get r "vector") as [| | | | |l|]; try done.
  destruct (Nat.ltb_spec 0 (length l)); [| done]. by intros [= <-].
Qed.

Lemma make_meta_mood_tags (m r : dict) (key : string) :
  item_moodTags (make_meta m r key) ≠ JNull.
Proof.
  unfold make_meta, py_or. simpl.
  destruct (truthy (if truthy (py_get m "moodTags") then _ else _)) eqn:E; [| done].
  intros H. by rewrite H in E.
Qed.

(** X11: the sidecar of a run that succeeds has a dimension and a count of
    at least one, and each of its items has a key that is not empty and a
    [moodTags] that is not null. *)
Theorem sidecar_is_well_formed (fs : filesystem)
    (movies_ndjson vectors_ndjson out_index out_meta : path) (tr : list event)
    (p : path) (doc : meta_obj) :
  build_faiss_index fs movies_ndjson vectors_ndjson out_index out_meta = (tr, inr tt) →
  EWriteText p doc ∈ tr →
  (1 ≤ meta_dim doc)%nat ∧
  (1 ≤ meta_count doc)%nat ∧
  ∀ item, item ∈ meta_items doc →
    Text.nonempty (item_key item) = true ∧
    item_moodTags item ≠ JNull.
Proof.
  intros Hrun Hdoc.
  apply build_success in Hrun as (d & _ & Hd & Hv & ->).
  set (mbk := build_movie_by_key _) in *. set (rows := _iter_ndjson fs vectors_ndjson) in *.
  assert (doc = final_meta d (join_loop mbk d rows)) as ->.
  { unfold success_trace in Hdoc.
    repeat (apply elem_of_cons in Hdoc as [Hdoc | Hdoc]; [by inversion Hdoc |]).
    by apply elem_of_nil in Hdoc. }
  unfold final_meta. simpl.
  destruct (join_loop_kept mbk d rows) as (Hvs & Hms & _).
  split; [by eapply infer_dim_positive |]. split.
  - rewrite Hms, length_map. rewrite Hvs in Hv.
    destruct (kept d rows); [done | simpl; lia].
  - intros item Hitem. rewrite Hms in Hitem.
    apply list_elem_of_In, in_map_iff in Hitem as ([r vec] & <- & Hin).
    apply list_elem_of_In, kept_elem in Hin as [_ Hvec].
    apply vec_of_shape in Hvec as (Hk & _).
    unfold item_of.
    split; [exact Hk | apply make_meta_mood_tags].
Qed.

(** X12: the join table binds a key exactly when the key is not empty and
    some movie record resolves to it, and the record a key is bound to is
    one of the movie records and resolves to that key. *)
Theorem join_table_holds_keyed_movies (movies_rows : list dict) (k : string) :
  (is_Some (build_movie_by_key movies_rows !! k) ↔
     Text.nonempty k = true ∧ ∃ m, m ∈ movies_rows ∧ _stable_key m = k) ∧
  (∀ m, build_movie_by_key movies_rows !! k = Some m →
        m ∈ movies_rows ∧ _stable_key m = k ∧ k ≠ "").
Proof.
  rewrite movie_by_key_last.
  assert (Hlast : ∀ m, last (filter (λ m, _stable_key m = k) movies_rows) = Some m →
                       m ∈ movies_rows ∧ _stable_key m = k).
  { intros m Hm. apply last_Some in Hm as [l' Hl'].
    assert (Hin : m ∈ filter (λ m, _stable_key m = k) movies_rows).
    { rewrite Hl'. apply elem_of_app. right. left. }
    by apply list_elem_of_filter in Hin as [? ?]. }
  destruct (Text.nonempty k) eqn:Hk.
  - split.
    + split.
      * intros [m Hm]. split; [done |]. exists m. by apply Hlast.
      * intros (_ & m & Hm & Hkey).
        assert (Hin : m ∈ filter (λ m, _stable_key m = k) movies_rows)
          by by apply list_elem_of_filter.
        destruct (filter (λ m, _stable_key m = k) movies_rows) as [|x l] eqn:E.
        { by apply elem_of_nil in Hin. }
        destruct (last (x :: l)) eqn:El; [eauto |].
        by apply last_None in El.
    + intros m Hm. destruct (Hlast m Hm). split; [done |]. split; [done |].
      intros ->. done.
  - split; [| done]. split; [by intros [? ?] | by intros [? _]].
Qed.

(** ** The join loop: what is skipped, and which movies matter *)

(** X16: the tally [skipped] counts exactly the records whose key is empty
    or whose vector the coercer rejects at the inferred dimension. *)
Theorem skipped_counts_rejected_records (movie_by_key : gmap string dict) (d : nat)
    (vector_rows : list dict) :
  skipped (join_loop movie_by_key d vector_rows) =
  length (filter (λ r, ¬ (Text.nonempty (vector_key r) = true ∧
                          is_Some (_coerce_vector (py_get r "vector") (Some d))))
                 vector_rows).
Proof.
  destruct (join_loop_kept movie_by_key d vector_rows) as (_ & _ & Hs).
  assert (Hlen : length (kept d vector_rows) +
                 length (filter (λ r, ¬ (Text.nonempty (vector_key r) = true ∧
                            is_Some (_coerce_vector (py_get r "vector") (Some d))))
                           vector_rows) = length vector_rows).
  { clear Hs. induction vector_rows as [|r rows IH]; simpl; [done |].
    destruct (vec_of d r) as [vec|] eqn:E.
    - rewrite filter_cons_False.
      + simpl. lia.
      + intros Hn. apply Hn. apply vec_of_is_Some. rewrite E. eauto.
    - rewrite filter_cons_True.
      + simpl. lia.
      + intros Hk. apply vec_of_is_Some in Hk as [? Hk]. congruence. }
  lia.
Qed.

(** X17: the rows kept and the tally [skipped] are the same whatever the
    join table is; the items depend on the table only through the keys of
    the kept records: two tables that bind these keys alike give the same
    items. *)
Theorem only_joined_movies_matter (mbk mbk' : gmap string dict) (d : nat)
    (vector_rows : list dict) :
  vectors (join_loop mbk d vector_rows) = vectors (join_loop mbk' d vector_rows) ∧
  skipped (join_loop mbk d vector_rows) = skipped (join_loop mbk' d vector_rows) ∧
  ((∀ r, r ∈ vector_rows → is_Some (vec_of d r) →
         mbk !! vector_key r = mbk' !! vector_key r) →
   metas (join_loop mbk d vector_rows) = metas (join_loop mbk' d vector_rows)).
Proof.
  destruct (join_loop_kept mbk d vector_rows) as (-> & -> & Hs).
  destruct (join_loop_kept mbk' d vector_rows) as (-> & -> & Hs').
  split; [done |]. split; [lia |].
  intros Hsame. apply map_ext_in. intros [r vec] Hin. simpl.
  apply list_elem_of_In, kept_elem in Hin as [Hr Hvec].
  unfold item_of, joined_movie.
  rewrite (Hsame r Hr); [done |]. rewrite Hvec. eauto.
Qed.

(** ** [_resolve_local_root] and [main]: proofs *)

Lemma strip_nonempty (s : string) :
  Text.nonempty (Text.strip s) = true → Text.nonempty s = true.
Proof. destruct s as [|c s]; [by vm_compute | reflexivity]. Qed.

(** X13: a command-line value that is not blank is the root, whatever the
    environment holds, and it is resolved as given, not stripped; a value
    that is not empty but blank is an error even when the environment names
    a root; without a value, or with an empty one, the environment's
    [LOCAL_DATA_PATH] decides in the same way. *)
Theorem resolve_local_root_precedence (environ : gmap string string)
    (cli_value : option string) :
  (∀ s, cli_value = Some s → Text.nonempty (Text.strip s) = true →
        _resolve_local_root environ cli_value = inr (expanduser_resolve s)) ∧
  (∀ s, cli_value = Some s → Text.nonempty s = true → Text.strip s = "" →
        _resolve_local_root environ cli_value = inl MissingLocalDataPath) ∧
  (cli_value = None ∨ cli_value = Some "" →
   _resolve_local_root environ cli_value =
     match environ !! "LOCAL_DATA_PATH" with
     | Some e =>
         if Text.nonempty (Text.strip e) then inr (expanduser_resolve e)
         else inl MissingLocalDataPath
     | None => inl MissingLocalDataPath
     end).
Proof.
  unfold _resolve_local_root, str_or. split; [| split].
  - intros s -> Hs. rewrite (strip_nonempty s Hs). by rewrite Hs, (strip_nonempty s Hs).
  - intros s -> Hs Hb. by rewrite Hs, Hs, Hb.
  - intros Hcli.
    assert (Hraw : match cli_value with
                   | Some s => if Text.nonempty s then cli_value
                               else environ !! "LOCAL_DATA_PATH"
                   | None => environ !! "LOCAL_DATA_PATH"
                   end = environ !! "LOCAL_DATA_PATH").
    { by destruct Hcli as [-> | ->]. }
    rewrite Hraw. destruct (environ !! "LOCAL_DATA_PATH") as [e|]; [| done].
    destruct (Text.nonempty (Text.strip e)) eqn:He.
    + by rewrite (strip_nonempty e He).
    + by rewrite orb_true_r.
Qed.

Lemma resolve_parsed_root (environ : gmap string string) (given : argv) :
  _resolve_local_root environ (Some (args_local_data_path (parse_args environ given))) =
  _resolve_local_root environ (given_local_data_path given).
Proof.
  unfold parse_args, _resolve_local_root, str_or. cbn [args_local_data_path].
  destruct (given_local_data_path given) as [s|]; [done |].
  destruct (environ !! "LOCAL_DATA_PATH") as [e|]; [| done].
  by destruct e.
Qed.

Lemma build_failure_writes_nothing (fs : filesystem)
    (movies_ndjson vectors_ndjson out_index out_meta : path) (tr : list event) (e : error) :
  build_faiss_index fs movies_ndjson vectors_ndjson out_index out_meta = (tr, inl e) →
  tr = [].
Proof.
  rewrite build_result. cbv zeta.
  destruct (is_nil (_iter_ndjson fs vectors_ndjson)); [by intros [= <- _] |].
  destruct (infer_dim (_iter_ndjson fs vectors_ndjson)); [| by intros [= <- _]].
  destruct (is_nil (vectors _)); [by intros [= <- _] | done].
Qed.

Lemma main_outcome (environ : gmap string string) (fs : filesystem) (given : argv) :
  main environ fs given =
  match _resolve_local_root environ (given_local_data_path given) with
  | inl e => ([], inl (ConfigError e))
  | inr root =>
      as_main_outcome
        (build_faiss_index fs
           (chosen_path (given_movies given)
              (joinpath (joinpath root "movies") "movies.ndjson"))
           (chosen_path (given_vectors given)
              (joinpath (joinpath root "vectors") "embeddings.ndjson"))
           (chosen_path (given_out_index given)
              (joinpath (joinpath root "index") "faiss.index"))
           (chosen_path (given_out_meta given)
              (joinpath (joinpath root "index") "meta.json")))
  end.
Proof.
  unfold main. cbv zeta. rewrite resolve_parsed_root.
  destruct (_resolve_local_root environ (given_local_data_path given)) as [e|root]; [done |].
  unfold parse_args, chosen_path, as_main_outcome. simpl.
  destruct (given_movies given), (given_vectors given), (given_out_index given),
    (given_out_meta given); reflexivity.
Qed.

(** X14: [main] stops with the error of [_resolve_local_root], having read
    and written nothing, exactly when the root given on the command line
    or, failing that, in the environment does not resolve; the four path
    options, all given or not, do not change this. *)
Theorem main_needs_local_root (environ : gmap string string) (fs : filesystem)
    (given : argv) :
  main environ fs given = ([], inl (ConfigError MissingLocalDataPath)) ↔
  _resolve_local_root environ (given_local_data_path given) = inl MissingLocalDataPath.
Proof.
  rewrite main_outcome.
  destruct (_resolve_local_root environ (given_local_data_path given)) as [[]|root].
  - done.
  - split; [| done]. unfold as_main_outcome.
    destruct (build_faiss_index _ _ _ _ _) as [tr [e|[]]]; done.
Qed.

(** X15: when [main] ends with one of the program's own errors, the one
    of [_resolve_local_root] or one of the three of [build_faiss_index],
    nothing has been written, whatever the options and the files. *)
Theorem main_own_errors_write_nothing (environ : gmap string string)
    (fs : filesystem) (given : argv) (tr : list event) (e : main_error) :
  main environ fs given = (tr, inl e) →
  tr = [] ∧
  (e = ConfigError MissingLocalDataPath ∨
   ∃ vectors_ndjson,
     e = BuildError (NoVectorsFound vectors_ndjson) ∨
     e = BuildError (NoValidVectorsFound vectors_ndjson) ∨
     e = BuildError NoValidVectorsToIndex).
Proof.
  rewrite main_outcome.
  destruct (_resolve_local_root environ (given_local_data_path given)) as [[]|root].
  { intros [= <- <-]. split; [done | by left]. }
  unfold as_main_outcome.
  destruct (build_faiss_index _ _ _ _ _) as [tr' [e'|[]]] eqn:Hb; [| done].
  intros [= <- <-]. split; [by eapply build_failure_writes_nothing |].
  right.
  exists (chosen_path (given_vectors given)
            (joinpath (joinpath root "vectors") "embeddings.ndjson")).
  revert Hb. rewrite build_result. cbv zeta.
  set (v := chosen_path (given_vectors given) _).
  destruct (is_nil (_iter_ndjson fs v)); [intros [= _ <-]; by left |].
  destruct (infer_dim (_iter_ndjson fs v)); [| intros [= _ <-]; right; by left].
  destruct (is_nil (vectors _)); [intros [= _ <-]; right; by right | done].
Qed.

(** ** The examples, whatever the interpreter supplies *)

Lemma ex_two_ids_keys :
  _stable_key ex_two_ids = "tt1" ∧ vector_key ex_two_ids = "k1".
Proof. split; reflexivity. Qed.

Lemma ex_blank_movie_join :
  build_movie_by_key [ex_movie_blank] !! "tt1" = Some ex_movie_blank ∧
  infer_dim [ex_vector_draft] = Some 2 ∧
  metas (join_loop (build_movie_by_key [ex_movie_blank]) 2 [ex_vector_draft]) =
    [ {| item_imdbId := JStr "tt1"; item_id := JNull; item_key := "tt1";
         item_title := JStr "Draft"; item_year := JInt 1999; item_genre := JNull;
         item_productionCountry := JNull; item_moodTags := JArr [JStr "dark"] |} ].
Proof. split; [| split]; vm_compute; reflexivity. Qed.

Lemma ex_shared_key_join :
  vector_key ex_vector_a1 = "a" ∧ vector_key ex_vector_a2 = "a" ∧
  infer_dim [ex_vector_a1; ex_vector_a2] = Some 1 ∧
  map item_key (metas (join_loop ∅ 1 [ex_vector_a1; ex_vector_a2])) = ["a"; "a"] ∧
  length (vectors (join_loop ∅ 1 [ex_vector_a1; ex_vector_a2])) = 2.
Proof. repeat split; vm_compute; reflexivity. Qed.

End BuildIndex.

(** ** The examples, run *)

(** C1 fails as stated: the record [ex_two_ids] is keyed [tt1] as a movie
    record and [k1] as a vector record (whatever prints floats and quoted
    text, by [ex_two_ids_keys]). *)
Lemma C1_counterexample :
  _stable_key ex_repr_float ex_repr_str ex_two_ids = "tt1" ∧
  vector_key ex_repr_float ex_repr_str ex_two_ids = "k1" ∧
  vector_key ex_repr_float ex_repr_str ex_two_ids
    ≠ _stable_key ex_repr_float ex_repr_str ex_two_ids.
Proof.
  destruct (ex_two_ids_keys ex_repr_float ex_repr_str) as [Hm Hv].
  rewrite Hm, Hv. repeat split. discriminate.
Qed.

(** C2 fails as stated: the movie [ex_movie_blank] is the one joined to
    [ex_vector_draft], its [title], [year] and [moodTags] are present, and
    the item carries the vector record's values for all three. *)
Lemma C2_counterexample :
  let movie_by_key := build_movie_by_key ex_repr_float ex_repr_str [ex_movie_blank] in
  let st := join_loop ex_repr_float ex_repr_str ex_float_of_str movie_by_key 2
              [ex_vector_draft] in
  infer_dim [ex_vector_draft] = Some 2 ∧
  ∃ item,
    metas st = [item] ∧
    movie_by_key !! item_key item = Some ex_movie_blank ∧
    dict_lookup ex_movie_blank "title" = Some (JStr "") ∧
    item_title item = JStr "Draft" ∧
    dict_lookup ex_movie_blank "year" = Some (JInt 0) ∧
    item_year item = JInt 1999 ∧
    dict_lookup ex_movie_blank "moodTags" = Some (JArr []) ∧
    item_moodTags item = JArr [JStr "dark"].
Proof.
  cbv zeta.
  destruct (ex_blank_movie_join ex_repr_float ex_repr_str ex_float_of_str)
    as (Hm & Hd & Hmetas).
  split; [exact Hd |].
  eexists. split; [exact Hmetas |]. simpl. repeat split; exact Hm.
Qed.

(** C4 fails as stated: [ex_vector_a1] and [ex_vector_a2] share the key
    [a], and the loop keeps a row and an item for each of them. *)
Lemma C4_counterexample :
  let st := join_loop ex_repr_float ex_repr_str ex_float_of_str ∅ 1
              [ex_vector_a1; ex_vector_a2] in
  vector_key ex_repr_float ex_repr_str ex_vector_a1 = "a" ∧
  vector_key ex_repr_float ex_repr_str ex_vector_a2 = "a" ∧
  infer_dim [ex_vector_a1; ex_vector_a2] = Some 1 ∧
  map item_key (metas st) = ["a"; "a"] ∧
  length (vectors st) = 2.
Proof. exact (ex_shared_key_join ex_repr_float ex_repr_str ex_float_of_str). Qed.



(** C2 at the run on [ex_fs]. *)
Lemma C2_witness :
  let vector_rows := _iter_ndjson ex_json_loads ex_fs "embeddings.ndjson" in
  let movie_by_key :=
    build_movie_by_key ex_repr_float ex_repr_str
      (_iter_ndjson ex_json_loads ex_fs "movies.ndjson") in
  let ex_run :=
    build_faiss_index ex_repr_float ex_repr_str ex_float_of_str ex_json_loads
      ex_linalg_norm ex_fs "movies.ndjson" "embeddings.ndjson" "faiss.index" "meta.json" in
  let ex_trace := fst ex_run in
  ex_run = (ex_trace, inr tt) ∧
  ∃ d doc,
    infer_dim vector_rows = Some d ∧
    EWriteText "meta.json" doc ∈ ex_trace ∧
    ∀ i item, meta_items doc !! i = Some item →
      ∃ r vec,
        kept ex_repr_float ex_repr_str ex_float_of_str d vector_rows !! i = Some (r, vec) ∧
        item_key item = vector_key ex_repr_float ex_repr_str r ∧
        ∀ m, movie_by_key !! item_key item = Some m →
          item_title item =
            (if truthy (py_get m "title") then py_get m "title" else py_get r "title").
Proof.
  cbv zeta.
  assert (Hrun :
    build_faiss_index ex_repr_float ex_repr_str ex_float_of_str ex_json_loads
      ex_linalg_norm ex_fs "movies.ndjson" "embeddings.ndjson" "faiss.index" "meta.json"
    = (fst (build_faiss_index ex_repr_float ex_repr_str ex_float_of_str ex_json_loads
              ex_linalg_norm ex_fs "movies.ndjson" "embeddings.ndjson" "faiss.index"
              "meta.json"), inr tt)) by (vm_compute; reflexivity).
  split; [exact Hrun |].
  destruct (C2_truthy_movie_fields_win _ _ _ _ _ _ _ _ _ _ _ Hrun)
    as (d & doc & Hd & Hin & _ & Hitems).
  exists d, doc. split; [exact Hd |]. split; [exact Hin |].
  intros i item Hi. destruct (Hitems i item Hi) as (r & vec & Hk & Hkey & Hm).
  exists r, vec. split; [exact Hk |]. split; [exact Hkey |].
  intros m Hlook. exact (proj1 (Hm m Hlook)).
Defined.

(** C3 at the run on [ex_fs_many]: five records read, four kept, keyed
    [a], [c], [d] and [z] in this order; the items carry these keys and the
    rows are the four vectors, each divided by its norm, in the same
    order. *)
Lemma C3_witness :
  let vector_rows := _iter_ndjson ex_json_loads_many ex_fs_many "embeddings.ndjson" in
  let movie_by_key :=
    build_movie_by_key ex_repr_float ex_repr_str
      (_iter_ndjson ex_json_loads_many ex_fs_many "movies.ndjson") in
  let ex_run :=
    build_faiss_index ex_repr_float ex_repr_str ex_float_of_str ex_json_loads_many
      ex_linalg_norm ex_fs_many "movies.ndjson" "embeddings.ndjson" "faiss.index" "meta.json" in
  let ex_trace := fst ex_run in
  let one := S754_finite false 8388608 (-23) in
  let zero := S754_zero false in
  ex_run = (ex_trace, inr tt) ∧
  map (λ rv, vector_key ex_repr_float ex_repr_str (fst rv))
      (kept ex_repr_float ex_repr_str ex_float_of_str 2 vector_rows)
    = ["a"; "c"; "d"; "z"] ∧
  ∃ index doc,
    EWriteIndex "faiss.index" index ∈ ex_trace ∧
    EWriteText "meta.json" doc ∈ ex_trace ∧
    meta_count doc = 4 ∧
    length (index_rows index) = 4 ∧
    map item_key (meta_items doc) = ["a"; "c"; "d"; "z"] ∧
    map item_title (meta_items doc) = [JNull; JStr "C"; JStr "D"; JNull] ∧
    index_rows index =
      [ [one; zero]; [zero; one];
        [S754_finite false 10066330 (-24); S754_finite false 13421773 (-24)];
        [zero; zero] ] ∧
    ∀ i, i < meta_count doc →
      ∃ r vec,
        kept ex_repr_float ex_repr_str ex_float_of_str 2 vector_rows !! i = Some (r, vec) ∧
        meta_items doc !! i = Some (item_of ex_repr_float ex_repr_str movie_by_key r) ∧
        index_rows index !! i = Some (normalize_row ex_linalg_norm (data vec)).
Proof.
  cbv zeta.
  assert (Hrun :
    build_faiss_index ex_repr_float ex_repr_str ex_float_of_str ex_json_loads_many
      ex_linalg_norm ex_fs_many "movies.ndjson" "embeddings.ndjson" "faiss.index" "meta.json"
    = (fst (build_faiss_index ex_repr_float ex_repr_str ex_float_of_str ex_json_loads_many
      ex_linalg_norm ex_fs_many "movies.ndjson" "embeddings.ndjson" "faiss.index" "meta.json"), inr tt)) by (vm_compute; reflexivity).
  split; [exact Hrun |]. split; [vm_compute; reflexivity |].
  destruct (C3_items_align_with_rows _ _ _ _ _ _ _ _ _ _ _ Hrun)
    as (d & index & doc & Hd & Htr & Hcount & _ & _ & _ & Hrows).
  vm_compute in Hd. injection Hd as <-.
  pose proof (f_equal (λ l, l !! 1) Htr) as Hindex.
  pose proof (f_equal (λ l, l !! 3) Htr) as Hdoc.
  vm_compute in Hindex. vm_compute in Hdoc.
  injection Hindex as <-. injection Hdoc as <-.
  eexists _, _.
  split; [rewrite Htr; right; left |].
  split; [rewrite Htr; do 3 right; left |].
  split; [reflexivity |]. split; [reflexivity |].
  split; [reflexivity |]. split; [reflexivity |]. split; [reflexivity |].
  intros i Hi. destruct (Hrows i Hi) as (r & vec & Hk & _ & _ & Hitem & Hrow).
  exists r, vec. split; [exact Hk |]. split; [exact Hitem | exact Hrow].
Defined.


(** C10 at the run on [ex_fs]: three records read, one kept, two skipped. *)
Lemma C10_witness :
  let ex_run :=
    build_faiss_index ex_repr_float ex_repr_str ex_float_of_str ex_json_loads
      ex_linalg_norm ex_fs "movies.ndjson" "embeddings.ndjson" "faiss.index" "meta.json" in
  let ex_trace := fst ex_run in
  ex_run = (ex_trace, inr tt) ∧
  length (_iter_ndjson ex_json_loads ex_fs "embeddings.ndjson") = 3 ∧
  ∃ doc,
    EWriteText "meta.json" doc ∈ ex_trace ∧
    meta_count doc + meta_skipped doc =
      length (_iter_ndjson ex_json_loads ex_fs "embeddings.ndjson").
Proof.
  cbv zeta.
  assert (Hrun :
    build_faiss_index ex_repr_float ex_repr_str ex_float_of_str ex_json_loads
      ex_linalg_norm ex_fs "movies.ndjson" "embeddings.ndjson" "faiss.index" "meta.json"
    = (fst (build_faiss_index ex_repr_float ex_repr_str ex_float_of_str ex_json_loads
              ex_linalg_norm ex_fs "movies.ndjson" "embeddings.ndjson" "faiss.index"
              "meta.json"), inr tt)) by (vm_compute; reflexivity).
  split; [exact Hrun |]. split; [vm_compute; reflexivity |].
  destruct (C10_count_plus_skipped _ _ _ _ _ _ _ _ _ _ _ Hrun)
    as (_ & doc & Hin & _ & _ & Hsum).
  exists doc. split; [exact Hin | exact Hsum].
Defined.

(** X1 on the movies file of [ex_fs]: five lines, two records, read from
    lines one and four. *)
Lemma reader_line_numbers_witness :
  ex_fs !! "movies.ndjson"
    = Some ["movie tt1"; ""; "# a comment"; "  movie tt1 again  "; "a number"] ∧
  map line_of (_iter_ndjson ex_json_loads ex_fs "movies.ndjson") = [1%Z; 4%Z] ∧
  StronglySorted Z.lt (map line_of (_iter_ndjson ex_json_loads ex_fs "movies.ndjson")) ∧
  Forall (λ n, (1 ≤ n ≤ 5)%Z) (map line_of (_iter_ndjson ex_json_loads ex_fs "movies.ndjson")).
Proof.
  assert (Hfile : ex_fs !! "movies.ndjson"
    = Some ["movie tt1"; ""; "# a comment"; "  movie tt1 again  "; "a number"])
    by (vm_compute; reflexivity).
  split; [exact Hfile |]. split; [vm_compute; reflexivity |].
  destruct (reader_line_numbers_increase ex_json_loads ex_fs "movies.ndjson" _ Hfile)
    as (_ & Hsorted & Hbounds).
  split; [exact Hsorted | exact Hbounds].
Defined.

(** X2 on [ex_fs_parts]. *)
Lemma reader_of_concatenation_witness :
  ex_fs_parts !! "a.ndjson" = Some ["movie tt1"; ""] ∧
  ex_fs_parts !! "b.ndjson" = Some ["# a comment"; "movie tt1 again"; "a number"] ∧
  ex_fs_parts !! "ab.ndjson"
    = Some (["movie tt1"; ""] ++ ["# a comment"; "movie tt1 again"; "a number"]) ∧
  _iter_ndjson ex_json_loads ex_fs_parts "ab.ndjson" =
  _iter_ndjson ex_json_loads ex_fs_parts "a.ndjson"
    ++ map (shift_line 2) (_iter_ndjson ex_json_loads ex_fs_parts "b.ndjson").
Proof.
  assert (Ha : ex_fs_parts !! "a.ndjson" = Some ["movie tt1"; ""])
    by (vm_compute; reflexivity).
  assert (Hb : ex_fs_parts !! "b.ndjson"
                 = Some ["# a comment"; "movie tt1 again"; "a number"])
    by (vm_compute; reflexivity).
  assert (Hab : ex_fs_parts !! "ab.ndjson"
                 = Some (["movie tt1"; ""] ++ ["# a comment"; "movie tt1 again"; "a number"]))
    by (vm_compute; reflexivity).
  split; [exact Ha |]. split; [exact Hb |]. split; [exact Hab |].
  exact (reader_of_concatenation ex_json_loads ex_fs_parts _ _ _ _ _ Ha Hb Hab).
Defined.

(** X6 on [ex_vector_with_nan]. *)
Lemma coercer_rejects_bad_items_witness :
  JFloat S754_nan ∈ ex_vector_with_nan ∧
  _coerce_vector ex_float_of_str (JArr ex_vector_with_nan) (Some 3) = None.
Proof.
  assert (Hin : JFloat S754_nan ∈ ex_vector_with_nan) by (unfold ex_vector_with_nan; left).
  split; [exact Hin |].
  apply (coercer_rejects_bad_items ex_float_of_str ex_vector_with_nan (Some 3)
           (JFloat S754_nan) Hin).
  right. left. reflexivity.
Defined.

(** X8 on [ex_fs] read with a movies file that does not exist. *)
Lemma missing_movies_witness :
  let ex_run :=
    build_faiss_index ex_repr_float ex_repr_str ex_float_of_str ex_json_loads
      ex_linalg_norm ex_fs "absent.ndjson" "embeddings.ndjson" "faiss.index" "meta.json" in
  ex_fs !! "absent.ndjson" = None ∧
  ex_run = (fst ex_run, inr tt) ∧
  ∃ d doc,
    EWriteText "meta.json" doc ∈ fst ex_run ∧
    meta_items doc =
      map (λ r, own_item r (vector_key ex_repr_float ex_repr_str r))
          (filter (λ r, is_Some (vec_of ex_repr_float ex_repr_str ex_float_of_str d r))
                  (_iter_ndjson ex_json_loads ex_fs "embeddings.ndjson")).
Proof.
  cbv zeta.
  assert (Hnone : ex_fs !! "absent.ndjson" = None) by (vm_compute; reflexivity).
  assert (Hrun :
    build_faiss_index ex_repr_float ex_repr_str ex_float_of_str ex_json_loads
      ex_linalg_norm ex_fs "absent.ndjson" "embeddings.ndjson" "faiss.index" "meta.json"
    = (fst (build_faiss_index ex_repr_float ex_repr_str ex_float_of_str ex_json_loads
              ex_linalg_norm ex_fs "absent.ndjson" "embeddings.ndjson" "faiss.index"
              "meta.json"), inr tt)) by (vm_compute; reflexivity).
  split; [exact Hnone |]. split; [exact Hrun |].
  destruct (missing_movies_items_are_own_fields _ _ _ _ _ _ _ _ _ _ _ Hnone Hrun)
    as (_ & d & doc & _ & Hin & Hitems).
  exists d, doc. split; [exact Hin | exact Hitems].
Defined.

(** X11 on the run on [ex_fs]. *)
Lemma sidecar_is_well_formed_witness :
  let ex_run :=
    build_faiss_index ex_repr_float ex_repr_str ex_float_of_str ex_json_loads
      ex_linalg_norm ex_fs "movies.ndjson" "embeddings.ndjson" "faiss.index" "meta.json" in
  let ex_doc :=
    {| meta_dim := 3; meta_count := 1; meta_skipped := 2;
       meta_items :=
         [ {| item_imdbId := JStr "tt1"; item_id := JNull; item_key := "tt1";
              item_title := JStr "X2"; item_year := JNull; item_genre := JStr "Drama";
              item_productionCountry := JNull; item_moodTags := JArr [] |} ] |} in
  ex_run = (fst ex_run, inr tt) ∧
  EWriteText "meta.json" ex_doc ∈ fst ex_run ∧
  ((1 ≤ meta_dim ex_doc)%nat ∧ (1 ≤ meta_count ex_doc)%nat ∧
   ∀ item, item ∈ meta_items ex_doc →
     Text.nonempty (item_key item) = true ∧
     item_moodTags item ≠ JNull).
Proof.
  cbv zeta.
  assert (Hrun :
    build_faiss_index ex_repr_float ex_repr_str ex_float_of_str ex_json_loads
      ex_linalg_norm ex_fs "movies.ndjson" "embeddings.ndjson" "faiss.index" "meta.json"
    = (fst (build_faiss_index ex_repr_float ex_repr_str ex_float_of_str ex_json_loads
              ex_linalg_norm ex_fs "movies.ndjson" "embeddings.ndjson" "faiss.index"
              "meta.json"), inr tt)) by (vm_compute; reflexivity).
  split; [exact Hrun |].
  match goal with |- ?A ∧ _ => assert (Hdoc : A) by (vm_compute; do 3 right; left) end.
  split; [exact Hdoc |].
  exact (sidecar_is_well_formed _ _ _ _ _ _ _ _ _ _ _ _ _ Hrun Hdoc).
Defined.

(** X15 on a command line with no option and the root [/data] in the
    environment, on files that hold no vectors dataset under it: the run
    ends with the error of line 90 and has written nothing. *)
Lemma main_own_errors_witness :
  let ex_main :=
    main ex_repr_float ex_repr_str ex_float_of_str ex_json_loads ex_linalg_norm
      ex_path_of ex_joinpath ex_expanduser_resolve ex_environ ex_fs ex_no_option in
  let ex_error := BuildError (NoVectorsFound "/data/vectors/embeddings.ndjson") in
  ex_main = (fst ex_main, inl ex_error) ∧
  fst ex_main = [] ∧
  (ex_error = ConfigError MissingLocalDataPath ∨
   ∃ vectors_ndjson,
     ex_error = BuildError (NoVectorsFound vectors_ndjson) ∨
     ex_error = BuildError (NoValidVectorsFound vectors_ndjson) ∨
     ex_error = BuildError NoValidVectorsToIndex).
Proof.
  cbv zeta.
  assert (Hrun :
    main ex_repr_float ex_repr_str ex_float_of_str ex_json_loads ex_linalg_norm
      ex_path_of ex_joinpath ex_expanduser_resolve ex_environ ex_fs ex_no_option
    = (fst (main ex_repr_float ex_repr_str ex_float_of_str ex_json_loads ex_linalg_norm
              ex_path_of ex_joinpath ex_expanduser_resolve ex_environ ex_fs
              ex_no_option),
       inl (BuildError (NoVectorsFound "/data/vectors/embeddings.ndjson"))))
    by (vm_compute; reflexivity).
  split; [exact Hrun |].
  exact (main_own_errors_write_nothing _ _ _ _ _ _ _ _ _ _ _ _ _ Hrun).
Defined.

(** X17 on the vector records of [ex_fs]: with no movie, with the movies of
    [ex_fs], and with [ex_movie_other] added to them, the rows kept and the
    tally are the same; the items are the same for the last two tables,
    which bind the one kept key [tt1] alike, and not for the first two. *)
Lemma only_joined_movies_matter_witness :
  let rows := _iter_ndjson ex_json_loads ex_fs "embeddings.ndjson" in
  let movies_rows := _iter_ndjson ex_json_loads ex_fs "movies.ndjson" in
  let mbk := build_movie_by_key ex_repr_float ex_repr_str movies_rows in
  let mbk' := build_movie_by_key ex_repr_float ex_repr_str (ex_movie_other :: movies_rows) in
  let loop := join_loop ex_repr_float ex_repr_str ex_float_of_str in
  mbk !! "tt9" = None ∧ mbk' !! "tt9" = Some ex_movie_other ∧
  vectors (loop ∅ 3 rows) = vectors (loop mbk 3 rows) ∧
  skipped (loop ∅ 3 rows) = skipped (loop mbk 3 rows) ∧
  metas (loop ∅ 3 rows) ≠ metas (loop mbk 3 rows) ∧
  metas (loop mbk 3 rows) = metas (loop mbk' 3 rows).
Proof.
  cbv zeta. split; [vm_compute; reflexivity |]. split; [vm_compute; reflexivity |].
  destruct (only_joined_movies_matter ex_repr_float ex_repr_str ex_float_of_str ∅
              (build_movie_by_key ex_repr_float ex_repr_str
                 (_iter_ndjson ex_json_loads ex_fs "movies.ndjson"))
              3 (_iter_ndjson ex_json_loads ex_fs "embeddings.ndjson"))
    as (Hv & Hs & _).
  split; [exact Hv |]. split; [exact Hs |].
  split; [vm_compute; discriminate |].
  refine (proj2 (proj2 (only_joined_movies_matter ex_repr_float ex_repr_str
                          ex_float_of_str _ _ 3 _)) _).
  intros r Hr Hsome.
  assert (Hkey : vector_key ex_repr_float ex_repr_str r = "tt1").
  { vm_compute in Hr.
    repeat (apply elem_of_cons in Hr as [-> | Hr];
            [first [reflexivity | by destruct Hsome as [? Hs']; vm_compute in Hs'] |]).
    by apply elem_of_nil in Hr. }
  rewrite Hkey. vm_compute. reflexivity.
Defined.
